(** * Volatility MCP server: a shallow embedding of [volatility_mcp_server.py]

    The server is a thin layer over one external program: every tool checks a
    path, builds an argument vector, spawns the program and hands back the
    captured text.  The embedding keeps that shape:

    - Python [str] is a sequence of Unicode code points ([pystr]); [bytes] is
      [list byte];
    - the operating system and the child process are a [Host]: a record of the
      primitives the source calls ([os.path.isfile], [os.makedirs],
      [asyncio.create_subprocess_exec], ...), acting on an abstract world;
    - effects are threaded by a small state-and-exception monad [M] that also
      records every directory creation and every spawn, so that "the tool is
      never invoked" is a statement about the recorded calls. *)

From Stdlib Require Import List ZArith NArith Lia Bool String Ascii.
From Stdlib Require Import Strings.Byte.
From Stdlib Require Import DecimalString.
Import ListNotations.

Local Open Scope N_scope.

(* ===================================================================== *)
(** ** Python strings *)
(* ===================================================================== *)

Module PyStr.

(** A [str] is a sequence of code points. *)
Definition codepoint := N.
Definition pystr := list codepoint.

(** A literal of the source, written as a Rocq string of ASCII characters. *)
Definition lit (s : string) : pystr :=
  map N_of_ascii (list_ascii_of_string s).

Fixpoint str_eqb (a b : pystr) : bool :=
  match a, b with
  | [], [] => true
  | x :: a', y :: b' => (x =? y) && str_eqb a' b'
  | _, _ => false
  end.

(** [bool(s)] for a string: the empty string is falsy. *)
Definition truthy (s : pystr) : bool :=
  match s with [] => false | _ :: _ => true end.

(** [bool(x)] for an [Optional[str]]: [None] and [''] are falsy. *)
Definition truthy_opt (o : option pystr) : bool :=
  match o with None => false | Some s => truthy s end.

(** [str.isspace] on one code point: the code points Python treats as white
    space ([Py_UNICODE_ISSPACE]). *)
Definition isspace (c : codepoint) : bool :=
  ((9 <=? c) && (c <=? 13)) || ((28 <=? c) && (c <=? 32))
  || (c =? 133) || (c =? 160) || (c =? 5760)
  || ((8192 <=? c) && (c <=? 8202))
  || (c =? 8232) || (c =? 8233) || (c =? 8239) || (c =? 8287) || (c =? 12288).

Fixpoint lstrip (s : pystr) : pystr :=
  match s with
  | [] => []
  | c :: s' => if isspace c then lstrip s' else s
  end.

Definition rstrip (s : pystr) : pystr := rev (lstrip (rev s)).

(** [s.strip()] *)
Definition strip (s : pystr) : pystr := rstrip (lstrip s).

(** [s.split(sep)] for a one-character separator: never empty, [''] gives
    [['']]. *)
Fixpoint split_on (sep : codepoint) (s : pystr) : list pystr :=
  match s with
  | [] => [[]]
  | c :: s' =>
      if c =? sep then [] :: split_on sep s'
      else match split_on sep s' with
           | l :: ls => (c :: l) :: ls
           | [] => [[c]]
           end
  end.

(** [s.split()]: the maximal runs of characters that are not white space. *)
Fixpoint split_ws (s : pystr) : list pystr :=
  match s with
  | [] => []
  | c :: s' =>
      if isspace c then split_ws s'
      else match s' with
           | [] => [[c]]
           | d :: _ =>
               if isspace d then [c] :: split_ws s'
               else match split_ws s' with
                    | tok :: toks => (c :: tok) :: toks
                    | [] => [[c]]
                    end
           end
  end.

(** Lower case of one code point on the ASCII range.  Python's [str.lower]
    also maps letters outside ASCII; only U+212A (to [k]) and U+0130 (to [i]
    followed by U+0307) produce an ASCII letter, so the ASCII suffixes tested
    by the source match the same names under either mapping. *)
Definition lower_cp (c : codepoint) : codepoint :=
  if (65 <=? c) && (c <=? 90) then c + 32 else c.

(** [s.lower()] *)
Definition lower (s : pystr) : pystr := map lower_cp s.

Fixpoint startswith (s pre : pystr) : bool :=
  match pre, s with
  | [], _ => true
  | p :: pre', c :: s' => (c =? p) && startswith s' pre'
  | _ :: _, [] => false
  end.

(** [s.endswith(suf)] *)
Definition endswith (s suf : pystr) : bool := startswith (rev s) (rev suf).

(** [sep.join(parts)] *)
Fixpoint join (sep : pystr) (parts : list pystr) : pystr :=
  match parts with
  | [] => []
  | [p] => p
  | p :: ps => p ++ sep ++ join sep ps
  end.

(** [str(n)] for an [int]. *)
Definition str_of_Z (z : Z) : pystr := lit (NilEmpty.string_of_int (Z.to_int z)).

Definition str_of_N (n : N) : pystr := str_of_Z (Z.of_N n).

Definition str_of_nat (n : nat) : pystr := str_of_Z (Z.of_nat n).

(** [t in s]: [t] occurs in [s] as a contiguous run. *)
Definition contains (s t : pystr) : Prop := exists pre post, s = pre ++ t ++ post.

End PyStr.
Import PyStr.

(* ===================================================================== *)
(** ** [bytes.decode('utf-8', errors='replace')] *)
(* ===================================================================== *)

Module Utf8.

(** U+FFFD, the character the [replace] error handler puts in place of an
    ill-formed run of bytes. *)
Definition REPLACEMENT : codepoint := 65533.

(** The range the next continuation byte has to lie in.  Only the first
    continuation byte of a sequence is restricted beyond 80..BF (to exclude
    overlong forms, surrogates and code points above U+10FFFF). *)
Inductive tail_range := T80_BF | TA0_BF | T80_9F | T90_BF | T80_8F.

Definition in_tail_range (r : tail_range) (b : N) : bool :=
  match r with
  | T80_BF => (128 <=? b) && (b <=? 191)
  | TA0_BF => (160 <=? b) && (b <=? 191)
  | T80_9F => (128 <=? b) && (b <=? 159)
  | T90_BF => (144 <=? b) && (b <=? 191)
  | T80_8F => (128 <=? b) && (b <=? 143)
  end.

(** Decoder state: between characters, or inside one with [more] continuation
    bytes expected after the next one and the payload bits read so far. *)
Inductive dstate :=
| Start
| Pending (more : nat) (acc : N) (r : tail_range).

(** What a byte does at the start of a character: it is a character of its
    own, it opens a multi-byte sequence, or it can start nothing. *)
Definition lead (b : N) : list codepoint * dstate :=
  if b <? 128 then ([b], Start)
  else if b <? 194 then ([REPLACEMENT], Start)
  else if b <? 224 then ([], Pending 0 (b - 192) T80_BF)
  else if b =? 224 then ([], Pending 1 0 TA0_BF)
  else if b =? 237 then ([], Pending 1 13 T80_9F)
  else if b <? 240 then ([], Pending 1 (b - 224) T80_BF)
  else if b =? 240 then ([], Pending 2 0 T90_BF)
  else if b <? 244 then ([], Pending 2 (b - 240) T80_BF)
  else if b =? 244 then ([], Pending 2 4 T80_8F)
  else ([REPLACEMENT], Start).

(** The decoder over byte values.  An ill-formed run (a byte that can start
    nothing, or a sequence cut short by a byte outside the expected range or
    by the end of the input) yields one [REPLACEMENT]; the offending byte is
    then read again as the start of a character. *)
Fixpoint decode_from (st : dstate) (bs : list N) : pystr :=
  match bs with
  | [] => match st with Start => [] | Pending _ _ _ => [REPLACEMENT] end
  | b :: rest =>
      match st with
      | Start => let (out, st') := lead b in out ++ decode_from st' rest
      | Pending more acc r =>
          if in_tail_range r b then
            match more with
            | O => (acc * 64 + (b - 128)) :: decode_from Start rest
            | S more' => decode_from (Pending more' (acc * 64 + (b - 128)) T80_BF) rest
            end
          else
            REPLACEMENT :: (let (out, st') := lead b in out ++ decode_from st' rest)
      end
  end.

(** [data.decode('utf-8', errors='replace')]: total, it never raises. *)
Definition decode_replace (data : list byte) : pystr :=
  decode_from Start (map Byte.to_N data).

(** A code point that UTF-8 can encode: not a surrogate, at most U+10FFFF. *)
Definition scalar (c : codepoint) : bool :=
  (c <? 55296) || ((57344 <=? c) && (c <? 1114112)).

Definition byte_of_N (n : N) : byte :=
  match Byte.of_N n with Some b => b | None => x00 end.

(** The UTF-8 encoding of one code point, as byte values. *)
Definition encode_cp (c : codepoint) : list N :=
  if c <? 128 then [c]
  else if c <? 2048 then [192 + c / 64; 128 + c mod 64]
  else if c <? 65536 then [224 + c / 4096; 128 + (c / 64) mod 64; 128 + c mod 64]
  else [240 + c / 262144; 128 + (c / 4096) mod 64; 128 + (c / 64) mod 64; 128 + c mod 64].

(** [text.encode('utf-8')] for a text of encodable code points. *)
Definition encode (text : pystr) : list byte :=
  map byte_of_N (flat_map encode_cp text).

(** The bytes of an ASCII literal. *)
Definition ascii_bytes (s : string) : list byte :=
  map byte_of_ascii (list_ascii_of_string s).

(** A byte that can start no character. *)
Definition starts_nothing (b : byte) : bool :=
  let n := Byte.to_N b in ((128 <=? n) && (n <? 194)) || (245 <=? n).

(** A literal all of whose characters are ASCII. *)
Definition is_ascii (s : string) : bool :=
  forallb (fun c => c <? 128) (lit s).

End Utf8.
Import Utf8.

(* ===================================================================== *)
(** ** [json.dumps(list_of_str, indent=2)] *)
(* ===================================================================== *)

Module Json.

Definition QUOTE : codepoint := 34.
Definition BACKSLASH : codepoint := 92.

Definition hex_digit (d : N) : codepoint := if d <? 10 then 48 + d else 87 + d.

(** [\uXXXX] with four lower-case hexadecimal digits. *)
Definition u_escape (c : N) : pystr :=
  [BACKSLASH; 117; hex_digit (c / 4096 mod 16); hex_digit (c / 256 mod 16);
   hex_digit (c / 16 mod 16); hex_digit (c mod 16)].

(** One character of a JSON string under [ensure_ascii=True]: the quote, the
    backslash and everything outside the printable ASCII range are escaped;
    a code point above U+FFFF becomes a surrogate pair. *)
Definition escape_cp (c : codepoint) : pystr :=
  if c =? QUOTE then [BACKSLASH; QUOTE]
  else if c =? BACKSLASH then [BACKSLASH; BACKSLASH]
  else if c =? 10 then [BACKSLASH; 110]
  else if c =? 13 then [BACKSLASH; 114]
  else if c =? 9 then [BACKSLASH; 116]
  else if c =? 8 then [BACKSLASH; 98]
  else if c =? 12 then [BACKSLASH; 102]
  else if (32 <=? c) && (c <=? 126) then [c]
  else if c <? 65536 then u_escape c
  else u_escape (55296 + (c - 65536) / 1024 mod 1024)
       ++ u_escape (56320 + (c - 65536) mod 1024).

Definition dumps_str (s : pystr) : pystr :=
  [QUOTE] ++ flat_map escape_cp s ++ [QUOTE].

(** [json.dumps(items, indent=2)] for a list of strings: [[]] for the empty
    list, otherwise one item per line, indented by two spaces. *)
Definition dumps_list_indent2 (items : list pystr) : pystr :=
  match items with
  | [] => lit "[]"
  | _ :: _ =>
      lit "[" ++ [10; 32; 32]
      ++ join ([44; 10; 32; 32]) (map dumps_str items)
      ++ [10] ++ lit "]"
  end.

End Json.

(* ===================================================================== *)
(** ** [int / int] and the [.2f] format *)
(* ===================================================================== *)

Module PyFloat.

(** Round [num / den] to the nearest integer, ties to even. *)
Definition round_half_even (num den : N) : N :=
  let q := num / den in
  let r := num mod den in
  if 2 * r <? den then q
  else if den <? 2 * r then q + 1
  else if N.even q then q else q + 1.

(** The double nearest to a non-negative integer (53 significant bits, ties
    to even): exact below [2^53]. *)
Definition float_of_int (n : N) : N :=
  if n <? 2 ^ 53 then n
  else let e := N.log2 n - 52 in round_half_even n (2 ^ e) * 2 ^ e.

(** A non-negative double by its exact value [mant / 2^exp2]. *)
Record pyfloat := { mant : N; exp2 : N }.

(** [a / b] for non-negative integers [a] and a power of two [b], as the
    source has it with [b = 1024 * 1024]: the quotient is correctly rounded,
    and dividing by a power of two only shifts the exponent. *)
Definition truediv (a b : N) : pyfloat :=
  {| mant := float_of_int a; exp2 := N.log2 b |}.

Definition two_digits (n : N) : pystr := [48 + n / 10; 48 + n mod 10].

(** The value of [x] in hundredths, rounded to nearest, ties to even, as the
    [.2f] format rounds the exact value of a double. *)
Definition hundredths (x : pyfloat) : N :=
  round_half_even (mant x * 100) (2 ^ exp2 x).

(** [f"{x:.2f}"] *)
Definition format_2f (x : pyfloat) : pystr :=
  let h := hundredths x in
  str_of_N (h / 100) ++ lit "." ++ two_digits (h mod 100).

End PyFloat.
Import Json PyFloat.

(* ===================================================================== *)
(** ** The host: operating system and child processes *)
(* ===================================================================== *)

Module Runtime.

(** An exception object of class [Exception]; [str(e)] is its description. *)
Record PyExc := { exc_str : pystr }.

(** The outcome of a call that may raise. *)
Inductive Result (A : Type) : Type :=
| Ok (a : A)
| Raise (e : PyExc).
Arguments Ok {A} a.
Arguments Raise {A} e.

(** What [communicate()] hands back, together with [process.returncode]
    as it stands once the child has terminated. *)
Record Completed := {
  stdout : list byte;
  stderr : list byte;
  returncode : Z
}.

(** The primitives of the Python runtime the server calls.  [world] is the
    state they read and change: the file system and whatever the external
    program does. *)
Class Host := {
  world : Type;
  process : Type;
  (** [sys.executable] *)
  executable : pystr;
  (** [os.path.normpath], [os.path.join] *)
  normpath : pystr -> pystr;
  path_join : pystr -> pystr -> pystr;
  (** [os.getcwd()] *)
  getcwd : world -> pystr;
  (** [os.path.isfile], [os.path.isdir], [os.path.exists] *)
  isfile : world -> pystr -> bool;
  isdir : world -> pystr -> bool;
  path_exists : world -> pystr -> bool;
  (** [os.makedirs(d)]: creates [d] and every missing parent, or raises *)
  makedirs : pystr -> world -> Result unit * world;
  (** [os.listdir(d)]: the names of the direct entries of [d], or raises *)
  listdir : pystr -> world -> Result (list pystr);
  (** [os.walk(top)]: one [(root, dirs, files)] per directory under [top] *)
  walk : pystr -> world -> list (pystr * list pystr * list pystr);
  (** [os.path.getsize(p)]: the size in bytes, or raises *)
  getsize : pystr -> world -> Result N;
  (** [asyncio.create_subprocess_exec] on the argument vector [cmd], with both output
      streams piped: a process handle, or raises *)
  spawn : list pystr -> pystr -> world -> Result process * world;
  (** [process.communicate()]: waits for the child to terminate *)
  wait : process -> world -> Result Completed * world;
  (** [normpath] never returns the empty string (it returns ['.']) *)
  normpath_nonempty : forall p, normpath p <> [];
  (** a directory that [makedirs] created is a directory afterwards *)
  makedirs_creates : forall d w w',
    makedirs d w = (Ok tt, w') -> isdir w' d = true
}.

(** The calls with an effect outside the server, as a spy would record them. *)
Inductive Call :=
| Makedirs (d : pystr)
| Spawn (argv : list pystr) (cwd : pystr).

Definition is_spawn (c : Call) : bool :=
  match c with Spawn _ _ => true | Makedirs _ => false end.

Section Monad.
Context {H : Host}.

(** The state a computation runs in: the world and the calls made so far. *)
Record State := { now : world; calls : list Call }.

(** A computation: it may change the state and either returns or raises. *)
Definition M (A : Type) : Type := State -> Result A * State.

Definition ret {A} (a : A) : M A := fun s => (Ok a, s).

Definition bind {A B} (c : M A) (k : A -> M B) : M B :=
  fun s =>
    match c s with
    | (Ok a, s') => k a s'
    | (Raise e, s') => (Raise e, s')
    end.

(** [try: body except Exception as e: handler(e)] *)
Definition try_except {A} (body : M A) (handler : PyExc -> M A) : M A :=
  fun s =>
    match body s with
    | (Ok a, s') => (Ok a, s')
    | (Raise e, s') => handler e s'
    end.

Definition record (c : Call) (s : State) (w : world) : State :=
  {| now := w; calls := calls s ++ [c] |}.

Definition os_getcwd : M pystr := fun s => (Ok (getcwd (now s)), s).
Definition os_path_isfile (p : pystr) : M bool := fun s => (Ok (isfile (now s) p), s).
Definition os_path_isdir (p : pystr) : M bool := fun s => (Ok (isdir (now s) p), s).
Definition os_path_exists (p : pystr) : M bool := fun s => (Ok (path_exists (now s) p), s).
Definition os_listdir (d : pystr) : M (list pystr) := fun s => (listdir d (now s), s).
Definition os_path_getsize (p : pystr) : M N := fun s => (getsize p (now s), s).
Definition os_walk (top : pystr) : M (list (pystr * list pystr * list pystr)) :=
  fun s => (Ok (walk top (now s)), s).

Definition os_makedirs (d : pystr) : M unit :=
  fun s => let (r, w) := makedirs d (now s) in (r, record (Makedirs d) s w).

Definition create_subprocess_exec (cmd : list pystr) (cwd : pystr) : M process :=
  fun s => let (r, w) := spawn cmd cwd (now s) in (r, record (Spawn cmd cwd) s w).

Definition communicate (p : process) : M Completed :=
  fun s => let (r, w) := wait p (now s) in (r, {| now := w; calls := calls s |}).

(** [for x in xs: acc = body(x, acc)] *)
Fixpoint for_each {A B} (xs : list A) (body : A -> B -> M B) (acc : B) : M B :=
  match xs with
  | [] => ret acc
  | x :: xs' => bind (body x acc) (for_each xs' body)
  end.

End Monad.

Declare Scope py_scope.
Delimit Scope py_scope with py.
Notation "x <- c ;; k" := (bind c (fun x => k))
  (at level 100, c at next level, right associativity) : py_scope.
Notation "c ;;; k" := (bind c (fun _ => k))
  (at level 100, right associativity) : py_scope.

End Runtime.
Import Runtime.
Local Open Scope py_scope.

(* ===================================================================== *)
(** ** The server: [volatility_mcp_server.py] *)
(* ===================================================================== *)

Section Server.
Context {H : Host}.

(** *** Configuration *)

Definition VOLATILITY_PYTHON : pystr := executable.
Definition VOLATILITY_DIR : pystr := normpath (lit "C:\Users\visha\Desktop\volatility3").
Definition VOLATILITY_SCRIPT : pystr := path_join VOLATILITY_DIR (lit "vol.py").

(** *** [run_volatility(cmd_args, cwd=VOLATILITY_DIR)] *)

Definition run_volatility (cmd_args : list pystr) (cwd : pystr) : M pystr :=
  let cmd := [VOLATILITY_PYTHON; VOLATILITY_SCRIPT] ++ cmd_args in
  try_except
    (process <- create_subprocess_exec cmd cwd ;;
     done <- communicate process ;;
     if negb (returncode done =? 0)%Z then
       let stderr_text := decode_replace (stderr done) in
       ret (lit "Error running Volatility command: " ++ stderr_text)
     else
       ret (decode_replace (stdout done)))
    (fun e => ret (lit "Exception running Volatility: " ++ exc_str e)).

(** The argument vector [run_volatility] spawns for [cmd_args]. *)
Definition command_of (cmd_args : list pystr) : list pystr :=
  [VOLATILITY_PYTHON; VOLATILITY_SCRIPT] ++ cmd_args.

(** The text [run_volatility] makes of a terminated child. *)
Definition text_of (done : Completed) : pystr :=
  if negb (returncode done =? 0)%Z
  then lit "Error running Volatility command: " ++ decode_replace (stderr done)
  else decode_replace (stdout done).

(** *** The tools *)

Definition list_available_plugins : M pystr :=
  run_volatility [lit "-h"] VOLATILITY_DIR.

Definition get_image_info (memory_dump_path : pystr) : M pystr :=
  let memory_dump_path := normpath memory_dump_path in
  found <- os_path_isfile memory_dump_path ;;
  if negb found then
    ret (lit "Error: Memory dump file not found at " ++ memory_dump_path)
  else
    run_volatility [lit "-f"; memory_dump_path; lit "windows.info.Info"] VOLATILITY_DIR.

Definition run_pstree (memory_dump_path : pystr) : M pystr :=
  let memory_dump_path := normpath memory_dump_path in
  found <- os_path_isfile memory_dump_path ;;
  if negb found then
    ret (lit "Error: Memory dump file not found at " ++ memory_dump_path)
  else
    run_volatility [lit "-f"; memory_dump_path; lit "windows.pstree.PsTree"] VOLATILITY_DIR.

Definition run_pslist (memory_dump_path : pystr) : M pystr :=
  let memory_dump_path := normpath memory_dump_path in
  found <- os_path_isfile memory_dump_path ;;
  if negb found then
    ret (lit "Error: Memory dump file not found at " ++ memory_dump_path)
  else
    run_volatility [lit "-f"; memory_dump_path; lit "windows.pslist.PsList"] VOLATILITY_DIR.

Definition run_psscan (memory_dump_path : pystr) : M pystr :=
  let memory_dump_path := normpath memory_dump_path in
  found <- os_path_isfile memory_dump_path ;;
  if negb found then
    ret (lit "Error: Memory dump file not found at " ++ memory_dump_path)
  else
    run_volatility [lit "-f"; memory_dump_path; lit "windows.psscan.PsScan"] VOLATILITY_DIR.

Definition run_netscan (memory_dump_path : pystr) : M pystr :=
  let memory_dump_path := normpath memory_dump_path in
  found <- os_path_isfile memory_dump_path ;;
  if negb found then
    ret (lit "Error: Memory dump file not found at " ++ memory_dump_path)
  else
    run_volatility [lit "-f"; memory_dump_path; lit "windows.netscan.NetScan"] VOLATILITY_DIR.

(** The [if dump_dir:] block of [run_malfind]: it either returns from the
    tool at once ([inl]) or falls through with the argument vector and the
    reassigned [dump_dir] ([inr]). *)
Definition malfind_dump_dir (cmd_args : list pystr) (dump_dir : option pystr)
  : M (pystr + list pystr * option pystr) :=
  match dump_dir with
  | Some d =>
      if truthy d then
        let dump_dir := normpath d in
        there <- os_path_isdir dump_dir ;;
        failed <- (if negb there then
                     try_except
                       (os_makedirs dump_dir ;;; ret None)
                       (fun e => ret (Some (lit "Error creating dump directory: " ++ exc_str e)))
                   else ret None) ;;
        match failed with
        | Some message => ret (inl message)
        | None => ret (inr (cmd_args ++ [lit "--dump-dir"; dump_dir], Some dump_dir))
        end
      else ret (inr (cmd_args, Some d))
  | None => ret (inr (cmd_args, None))
  end.

(** The end of [run_malfind]: when [dump_dir] is set and exists, its direct
    entries are listed and, unless there is none, their count is appended to
    the result. *)
Definition malfind_summary (result : pystr) (dump_dir : option pystr) : M pystr :=
  match dump_dir with
  | Some d =>
      if truthy d then
        there <- os_path_exists d ;;
        if there then
          dumped_files <- os_listdir d ;;
          match dumped_files with
          | _ :: _ =>
              ret (result ++ [10; 10] ++ lit "Dumped "
                     ++ str_of_nat (List.length dumped_files)
                     ++ lit " suspicious memory sections to " ++ d)
          | [] => ret result
          end
        else ret result
      else ret result
  | None => ret result
  end.

Definition run_malfind (memory_dump_path : pystr) (dump_dir : option pystr) : M pystr :=
  let memory_dump_path := normpath memory_dump_path in
  found <- os_path_isfile memory_dump_path ;;
  if negb found then
    ret (lit "Error: Memory dump file not found at " ++ memory_dump_path)
  else
    let cmd_args := [lit "-f"; memory_dump_path; lit "windows.malfind.Malfind"] in
    after <- malfind_dump_dir cmd_args dump_dir ;;
    match after with
    | inl message => ret message
    | inr (cmd_args, dump_dir) =>
        result <- run_volatility cmd_args VOLATILITY_DIR ;;
        malfind_summary result dump_dir
    end.

Definition run_cmdline (memory_dump_path : pystr) : M pystr :=
  let memory_dump_path := normpath memory_dump_path in
  found <- os_path_isfile memory_dump_path ;;
  if negb found then
    ret (lit "Error: Memory dump file not found at " ++ memory_dump_path)
  else
    run_volatility [lit "-f"; memory_dump_path; lit "windows.cmdline.CmdLine"] VOLATILITY_DIR.

Definition run_dlllist (memory_dump_path : pystr) (pid : option Z) : M pystr :=
  let memory_dump_path := normpath memory_dump_path in
  found <- os_path_isfile memory_dump_path ;;
  if negb found then
    ret (lit "Error: Memory dump file not found at " ++ memory_dump_path)
  else
    let cmd_args := [lit "-f"; memory_dump_path; lit "windows.dlllist.DllList"] in
    let cmd_args :=
      match pid with
      | Some pid => cmd_args ++ [lit "--pid"; str_of_Z pid]
      | None => cmd_args
      end in
    run_volatility cmd_args VOLATILITY_DIR.

Definition run_handles (memory_dump_path : pystr) (pid : option Z) : M pystr :=
  let memory_dump_path := normpath memory_dump_path in
  found <- os_path_isfile memory_dump_path ;;
  if negb found then
    ret (lit "Error: Memory dump file not found at " ++ memory_dump_path)
  else
    let cmd_args := [lit "-f"; memory_dump_path; lit "windows.handles.Handles"] in
    let cmd_args :=
      match pid with
      | Some pid => cmd_args ++ [lit "--pid"; str_of_Z pid]
      | None => cmd_args
      end in
    run_volatility cmd_args VOLATILITY_DIR.

Definition run_filescan (memory_dump_path : pystr) : M pystr :=
  let memory_dump_path := normpath memory_dump_path in
  found <- os_path_isfile memory_dump_path ;;
  if negb found then
    ret (lit "Error: Memory dump file not found at " ++ memory_dump_path)
  else
    run_volatility [lit "-f"; memory_dump_path; lit "windows.filescan.FileScan"] VOLATILITY_DIR.

Definition run_memmap (memory_dump_path : pystr) (pid : Z) : M pystr :=
  let memory_dump_path := normpath memory_dump_path in
  found <- os_path_isfile memory_dump_path ;;
  if negb found then
    ret (lit "Error: Memory dump file not found at " ++ memory_dump_path)
  else
    run_volatility
      [lit "-f"; memory_dump_path; lit "windows.memmap.Memmap"; lit "--pid"; str_of_Z pid]
      VOLATILITY_DIR.

Definition run_custom_plugin (memory_dump_path plugin_name additional_args : pystr) : M pystr :=
  let memory_dump_path := normpath memory_dump_path in
  found <- os_path_isfile memory_dump_path ;;
  if negb found then
    ret (lit "Error: Memory dump file not found at " ++ memory_dump_path)
  else
    let cmd_args := [lit "-f"; memory_dump_path; plugin_name] in
    let cmd_args :=
      if truthy additional_args then cmd_args ++ split_ws additional_args
      else cmd_args in
    run_volatility cmd_args VOLATILITY_DIR.

(** *** [list_memory_dumps] *)

Definition memory_extensions : list pystr :=
  [lit ".raw"; lit ".vmem"; lit ".dmp"; lit ".mem"; lit ".bin"; lit ".img";
   lit ".001"; lit ".dump"].

(** [any(file.lower().endswith(ext) for ext in memory_extensions)] *)
Definition has_memory_extension (file : pystr) : bool :=
  existsb (fun ext => endswith (lower file) ext) memory_extensions.

(** The body of the inner loop, for one [file] of the directory [root]. *)
Definition scan_file (root file : pystr) (memory_files : list pystr) : M (list pystr) :=
  if has_memory_extension file then
    let full_path := path_join root file in
    size <- os_path_getsize full_path ;;
    let size_mb := truediv size (1024 * 1024) in
    ret (memory_files ++ [full_path ++ lit " (Size: " ++ format_2f size_mb ++ lit " MB)"])
  else ret memory_files.

(** The body of the outer loop, for one [(root, _, files)] of the walk. *)
Definition scan_directory (entry : pystr * list pystr * list pystr)
    (memory_files : list pystr) : M (list pystr) :=
  let '(root, _, files) := entry in
  for_each files (scan_file root) memory_files.

Definition list_memory_dumps (search_dir : option pystr) : M pystr :=
  search_dir <- (if negb (truthy_opt search_dir) then os_getcwd
                 else ret (match search_dir with Some d => d | None => [] end)) ;;
  let search_dir := normpath search_dir in
  there <- os_path_isdir search_dir ;;
  if negb there then
    ret (lit "Error: Directory not found at " ++ search_dir)
  else
    entries <- os_walk search_dir ;;
    memory_files <- for_each entries scan_directory [] ;;
    match memory_files with
    | [] => ret (lit "No memory dump files found in " ++ search_dir)
    | _ :: _ => ret (lit "Found memory dump files:" ++ [10] ++ join [10] memory_files)
    end.

(** *** The resources *)

(** The loop of [get_volatility_plugins] over the remaining [lines], with
    the loop variables [capture] and [plugins]. *)
Fixpoint scan_plugins (lines : list pystr) (capture : bool) (plugins : list pystr)
  : list pystr :=
  match lines with
  | [] => plugins
  | line :: rest =>
      if str_eqb (strip line) (lit "Plugins") then
        scan_plugins rest true plugins
      else if capture && str_eqb (strip line) [] then
        plugins
      else if capture then
        scan_plugins rest capture (plugins ++ [strip line])
      else
        scan_plugins rest capture plugins
  end.

(** The text processing of [get_volatility_plugins], from the help text. *)
Definition plugins_of_help (output : pystr) : pystr :=
  let plugins := scan_plugins (split_on 10 output) false [] in
  dumps_list_indent2 plugins.

Definition get_volatility_plugins : M pystr :=
  output <- run_volatility [lit "-h"] VOLATILITY_DIR ;;
  ret (plugins_of_help output).

Definition get_plugin_help (plugin : pystr) : M pystr :=
  run_volatility [plugin; lit "--help"] VOLATILITY_DIR.

End Server.

(* ===================================================================== *)
(** ** Tool calls *)
(* ===================================================================== *)

(** One request to a tool registered with [@mcp.tool()]: the tool's name
    with its arguments. *)
Inductive ToolCall :=
| ListAvailablePlugins
| GetImageInfo (memory_dump_path : pystr)
| RunPstree (memory_dump_path : pystr)
| RunPslist (memory_dump_path : pystr)
| RunPsscan (memory_dump_path : pystr)
| RunNetscan (memory_dump_path : pystr)
| RunMalfind (memory_dump_path : pystr) (dump_dir : option pystr)
| RunCmdline (memory_dump_path : pystr)
| RunDlllist (memory_dump_path : pystr) (pid : option Z)
| RunHandles (memory_dump_path : pystr) (pid : option Z)
| RunFilescan (memory_dump_path : pystr)
| RunMemmap (memory_dump_path : pystr) (pid : Z)
| RunCustomPlugin (memory_dump_path plugin_name additional_args : pystr)
| ListMemoryDumps (search_dir : option pystr).

Section Dispatch.
Context {H : Host}.

(** The server answering a tool call: the function registered under the
    tool's name, applied to the arguments. *)
Definition call_tool (c : ToolCall) : M pystr :=
  match c with
  | ListAvailablePlugins => list_available_plugins
  | GetImageInfo p => get_image_info p
  | RunPstree p => run_pstree p
  | RunPslist p => run_pslist p
  | RunPsscan p => run_psscan p
  | RunNetscan p => run_netscan p
  | RunMalfind p d => run_malfind p d
  | RunCmdline p => run_cmdline p
  | RunDlllist p pid => run_dlllist p pid
  | RunHandles p pid => run_handles p pid
  | RunFilescan p => run_filescan p
  | RunMemmap p pid => run_memmap p pid
  | RunCustomPlugin p name args => run_custom_plugin p name args
  | ListMemoryDumps d => list_memory_dumps d
  end.

(** The memory-image path of a call, for the twelve tools that take one. *)
Definition image_path (c : ToolCall) : option pystr :=
  match c with
  | ListAvailablePlugins | ListMemoryDumps _ => None
  | GetImageInfo p | RunPstree p | RunPslist p | RunPsscan p | RunNetscan p
  | RunMalfind p _ | RunCmdline p | RunDlllist p _ | RunHandles p _
  | RunFilescan p | RunMemmap p _ | RunCustomPlugin p _ _ => Some p
  end.

(** The arguments a tool hands to [run_volatility] once its checks passed. *)
Definition cmd_args_of (c : ToolCall) : list pystr :=
  match c with
  | ListAvailablePlugins => [lit "-h"]
  | GetImageInfo p => [lit "-f"; normpath p; lit "windows.info.Info"]
  | RunPstree p => [lit "-f"; normpath p; lit "windows.pstree.PsTree"]
  | RunPslist p => [lit "-f"; normpath p; lit "windows.pslist.PsList"]
  | RunPsscan p => [lit "-f"; normpath p; lit "windows.psscan.PsScan"]
  | RunNetscan p => [lit "-f"; normpath p; lit "windows.netscan.NetScan"]
  | RunMalfind p d =>
      let cmd_args := [lit "-f"; normpath p; lit "windows.malfind.Malfind"] in
      match d with
      | Some d' => if truthy d' then cmd_args ++ [lit "--dump-dir"; normpath d'] else cmd_args
      | None => cmd_args
      end
  | RunCmdline p => [lit "-f"; normpath p; lit "windows.cmdline.CmdLine"]
  | RunDlllist p pid =>
      let cmd_args := [lit "-f"; normpath p; lit "windows.dlllist.DllList"] in
      match pid with
      | Some pid => cmd_args ++ [lit "--pid"; str_of_Z pid]
      | None => cmd_args
      end
  | RunHandles p pid =>
      let cmd_args := [lit "-f"; normpath p; lit "windows.handles.Handles"] in
      match pid with
      | Some pid => cmd_args ++ [lit "--pid"; str_of_Z pid]
      | None => cmd_args
      end
  | RunFilescan p => [lit "-f"; normpath p; lit "windows.filescan.FileScan"]
  | RunMemmap p pid =>
      [lit "-f"; normpath p; lit "windows.memmap.Memmap"; lit "--pid"; str_of_Z pid]
  | RunCustomPlugin p name args =>
      let cmd_args := [lit "-f"; normpath p; name] in
      if truthy args then cmd_args ++ split_ws args else cmd_args
  | ListMemoryDumps _ => []
  end.

(** The shape the tools with a memory image share: the existence check, then
    the invocation. *)
Definition with_image (memory_dump_path : pystr) (cmd_args : list pystr) : M pystr :=
  let memory_dump_path := normpath memory_dump_path in
  found <- os_path_isfile memory_dump_path ;;
  if negb found then
    ret (lit "Error: Memory dump file not found at " ++ memory_dump_path)
  else
    run_volatility cmd_args VOLATILITY_DIR.

(** The calls a computation records when run from [s]. *)
Definition new_calls {A} (c : M A) (s : State) : list Call :=
  skipn (List.length (calls s)) (calls (snd (c s))).

(** The text a computation returns when run from [s], if it returns. *)
Definition returned {A} (c : M A) (s : State) : Result A := fst (c s).

End Dispatch.

(* ===================================================================== *)
(** ** The specification's words, as definitions to compare with *)
(* ===================================================================== *)

Module Spec.
Section Words.
Context {H : Host}.

(** The parts of an argument vector the specification's invariant names. *)
Record Layout := {
  image : option pystr;
  subcommand : pystr;
  dump_directory : option pystr;
  process_identifier : option Z;
  additional : list pystr
}.

(** The invariant's layout: the invocation mechanism, then [-f <path>] when
    a memory image is required, then the subcommand, then the optional flags
    in the order dump directory, process identifier, additional arguments. *)
Definition layout_argv (entry : list pystr) (l : Layout) : list pystr :=
  entry
  ++ match image l with Some p => [lit "-f"; p] | None => [] end
  ++ [subcommand l]
  ++ match dump_directory l with Some d => [lit "--dump-dir"; d] | None => [] end
  ++ match process_identifier l with Some n => [lit "--pid"; str_of_Z n] | None => [] end
  ++ additional l.

Definition plain (sub : string) (p : pystr) : Layout :=
  {| image := Some (normpath p); subcommand := lit sub; dump_directory := None;
     process_identifier := None; additional := [] |}.

(** The table of operations: the subcommand of each tool and the parameters
    it forwards.  [ListMemoryDumps] works on the file system only. *)
Definition layout_of (c : ToolCall) : option Layout :=
  match c with
  | ListAvailablePlugins =>
      Some {| image := None; subcommand := lit "-h"; dump_directory := None;
              process_identifier := None; additional := [] |}
  | GetImageInfo p => Some (plain "windows.info.Info" p)
  | RunPstree p => Some (plain "windows.pstree.PsTree" p)
  | RunPslist p => Some (plain "windows.pslist.PsList" p)
  | RunPsscan p => Some (plain "windows.psscan.PsScan" p)
  | RunNetscan p => Some (plain "windows.netscan.NetScan" p)
  | RunMalfind p d =>
      Some {| image := Some (normpath p); subcommand := lit "windows.malfind.Malfind";
              dump_directory :=
                match d with
                | Some d' => if truthy d' then Some (normpath d') else None
                | None => None
                end;
              process_identifier := None; additional := [] |}
  | RunCmdline p => Some (plain "windows.cmdline.CmdLine" p)
  | RunDlllist p pid =>
      Some {| image := Some (normpath p); subcommand := lit "windows.dlllist.DllList";
              dump_directory := None; process_identifier := pid; additional := [] |}
  | RunHandles p pid =>
      Some {| image := Some (normpath p); subcommand := lit "windows.handles.Handles";
              dump_directory := None; process_identifier := pid; additional := [] |}
  | RunFilescan p => Some (plain "windows.filescan.FileScan" p)
  | RunMemmap p pid =>
      Some {| image := Some (normpath p); subcommand := lit "windows.memmap.Memmap";
              dump_directory := None; process_identifier := Some pid; additional := [] |}
  | RunCustomPlugin p name args =>
      Some {| image := Some (normpath p); subcommand := name; dump_directory := None;
              process_identifier := None; additional := split_ws args |}
  | ListMemoryDumps _ => None
  end.

(** The process-identifier flag: nothing when no identifier is supplied. *)
Definition pid_flag (pid : option Z) : list pystr :=
  match pid with
  | Some n => [lit "--pid"; str_of_Z n]
  | None => []
  end.

(** A line whose trimmed content is exactly [Plugins]; a blank line. *)
Definition is_heading (line : pystr) : bool := str_eqb (strip line) (lit "Plugins").
Definition is_blank (line : pystr) : bool := str_eqb (strip line) [].

(** The lines after the first heading line. *)
Fixpoint after_heading (lines : list pystr) : list pystr :=
  match lines with
  | [] => []
  | line :: rest => if is_heading line then rest else after_heading rest
  end.

(** The lines up to, and without, the first blank line. *)
Fixpoint until_blank (lines : list pystr) : list pystr :=
  match lines with
  | [] => []
  | line :: rest => if is_blank line then [] else line :: until_blank rest
  end.

(** The plugin names as the specification describes the capture: every line
    after the heading and before the first blank line, trimmed. *)
Definition captured_as_specified (lines : list pystr) : list pystr :=
  map strip (until_blank (after_heading lines)).

(** The capture of the source: as above, without further heading lines. *)
Definition captured (lines : list pystr) : list pystr :=
  map strip (filter (fun line => negb (is_heading line)) (until_blank (after_heading lines))).

(** [name] ends with [ext] when letter case is ignored ([ext] is lower case). *)
Definition ends_with_ignoring_case (name ext : pystr) : Prop :=
  exists stem tail, name = stem ++ tail /\ lower tail = ext.

(** A file the recursive walk of [top] finds: [file] is listed among the
    files of the directory [root]. *)
Definition found_by_walk (w : world) (top root file : pystr) : Prop :=
  exists dirs files, In (root, dirs, files) (walk top w) /\ In file files.

(** The files of the walk that are reported, in the order of the walk. *)
Definition candidates (w : world) (top : pystr) : list (pystr * pystr) :=
  flat_map (fun entry : pystr * list pystr * list pystr =>
              let '(root, _, files) := entry in
              map (pair root) (filter has_memory_extension files))
           (walk top w).

(** The report line of a file of [size] bytes. *)
Definition report_line (root file : pystr) (size : N) : pystr :=
  path_join root file ++ lit " (Size: " ++ format_2f (truediv size 1048576) ++ lit " MB)".

(** The directory [list_memory_dumps] searches: the current working
    directory when none is given. *)
Definition resolved_directory (w : world) (search_dir : option pystr) : pystr :=
  normpath (match search_dir with
            | Some (c :: d) => c :: d
            | Some [] | None => getcwd w
            end).

End Words.
End Spec.
Import Spec.

(* ===================================================================== *)
(** ** A small concrete host *)
(* ===================================================================== *)

(** A host with a file system held in a table and an external program whose
    behaviour is scripted: enough to run every tool on concrete inputs. *)
Module Toy.

Inductive node :=
| File (size : N)
| Dir (entries : list pystr).

Record toy_world := {
  nodes : list (pystr * node);
  cwd : pystr;
  (** what a walk of the tree yields *)
  tree : list (pystr * list pystr * list pystr);
  (** whether directories may be created *)
  writable : bool;
  (** the external program: its outcome by argument vector, [None] when it
      cannot be started *)
  tool : list pystr -> option Completed;
  (** the files the external program leaves behind *)
  tool_writes : list (pystr * node)
}.

Fixpoint lookup (p : pystr) (table : list (pystr * node)) : option node :=
  match table with
  | [] => None
  | (q, n) :: rest => if str_eqb p q then Some n else lookup p rest
  end.

Definition toy_normpath (p : pystr) : pystr :=
  match p with [] => lit "." | _ :: _ => p end.

Definition toy_isfile (w : toy_world) (p : pystr) : bool :=
  match lookup p (nodes w) with Some (File _) => true | _ => false end.

Definition toy_isdir (w : toy_world) (p : pystr) : bool :=
  match lookup p (nodes w) with Some (Dir _) => true | _ => false end.

Definition toy_exists (w : toy_world) (p : pystr) : bool :=
  match lookup p (nodes w) with Some _ => true | None => false end.

Definition with_nodes (w : toy_world) (table : list (pystr * node)) : toy_world :=
  {| nodes := table; cwd := cwd w; tree := tree w; writable := writable w;
     tool := tool w; tool_writes := tool_writes w |}.

Definition toy_makedirs (d : pystr) (w : toy_world) : Result unit * toy_world :=
  if writable w then (Ok tt, with_nodes w ((d, Dir []) :: nodes w))
  else (Raise {| exc_str := lit "[Errno 13] Permission denied" |}, w).

Definition toy_listdir (d : pystr) (w : toy_world) : Result (list pystr) :=
  match lookup d (nodes w) with
  | Some (Dir entries) => Ok entries
  | _ => Raise {| exc_str := lit "[Errno 20] Not a directory" |}
  end.

Definition toy_getsize (p : pystr) (w : toy_world) : Result N :=
  match lookup p (nodes w) with
  | Some (File size) => Ok size
  | _ => Raise {| exc_str := lit "[Errno 2] No such file or directory" |}
  end.

Definition toy_spawn (cmd : list pystr) (dir : pystr) (w : toy_world)
  : Result Completed * toy_world :=
  match tool w cmd with
  | Some done => (Ok done, with_nodes w (tool_writes w ++ nodes w))
  | None => (Raise {| exc_str := lit "[Errno 2] No such file or directory" |}, w)
  end.

#[refine] Instance toy_host : Host := {|
  world := toy_world;
  process := Completed;
  executable := lit "python";
  normpath := toy_normpath;
  path_join := fun a b => a ++ lit "/" ++ b;
  getcwd := cwd;
  isfile := toy_isfile;
  isdir := toy_isdir;
  path_exists := toy_exists;
  makedirs := toy_makedirs;
  listdir := toy_listdir;
  walk := fun _ w => tree w;
  getsize := toy_getsize;
  spawn := toy_spawn;
  wait := fun p w => (Ok p, w)
|}.
Proof.
  - intros [|c p]; discriminate.
  - intros d w w'. unfold toy_makedirs.
    destruct (writable w); [|discriminate].
    intros E. injection E as <-.
    unfold toy_isdir, with_nodes. simpl.
    assert (R : forall x, str_eqb x x = true)
      by (induction x as [|a x IH]; simpl; rewrite ?N.eqb_refl; auto).
    now rewrite R.
Defined.

(** The external program succeeding, failing, and missing. *)
Definition echoes (text : string) (_ : list pystr) : option Completed :=
  Some {| stdout := ascii_bytes text; stderr := []; returncode := 0 |}.

Definition fails_with (text : string) (_ : list pystr) : option Completed :=
  Some {| stdout := []; stderr := ascii_bytes text; returncode := 1 |}.

Definition missing (_ : list pystr) : option Completed := None.

(** A machine with one memory image, a directory of candidate files, and a
    program that leaves one dumped file in [out]. *)
Definition machine (program : list pystr -> option Completed) (may_write : bool)
  : toy_world :=
  {| nodes := [(lit "mem.raw", File 5242880);
               (lit "dumps", Dir [lit "a.dmp"; lit "b.txt"; lit "c.RAW"]);
               (lit "dumps/a.dmp", File 131072);
               (lit "dumps/b.txt", File 10);
               (lit "dumps/c.RAW", File 1234567)];
     cwd := lit "dumps";
     tree := [(lit "dumps", [], [lit "a.dmp"; lit "b.txt"; lit "c.RAW"])];
     writable := may_write;
     tool := program;
     tool_writes := [(lit "out", Dir [lit "pid.4.0x1000.dmp"])] |}.

Definition boot (w : toy_world) : State := {| now := w; calls := [] |}.

(** The sizes of the files of the concrete machine. *)
Definition sizes (path : pystr) : N :=
  if str_eqb path (lit "dumps/a.dmp") then 131072 else 1234567.

(** The machine above with a program that leaves a regular file where the
    dump directory [out] should be. *)
Definition clobbering_machine : toy_world :=
  {| nodes := nodes (machine (echoes "hits") true);
     cwd := lit "dumps";
     tree := tree (machine (echoes "hits") true);
     writable := true;
     tool := echoes "hits";
     tool_writes := [(lit "out", File 7)] |}.

(** A machine whose walk finds one small file. *)
Definition tiny_machine : toy_world :=
  {| nodes := [(lit "dumps", Dir [lit "t.mem"]); (lit "dumps/t.mem", File 100)];
     cwd := lit "dumps";
     tree := [(lit "dumps", [], [lit "t.mem"])];
     writable := false;
     tool := missing;
     tool_writes := [] |}.

End Toy.

(* ===================================================================== *)
(** ** Further definitions *)
(* ===================================================================== *)

(** The tools that do nothing but check the image and invoke the program:
    all but [run_malfind] and [list_memory_dumps]. *)
Definition plain_tool (c : ToolCall) : bool :=
  match c with
  | RunMalfind _ _ | ListMemoryDumps _ => false
  | _ => true
  end.

(** A character that is no white space. *)
Definition is_solid (c : codepoint) : bool := negb (isspace c).

(** A line feed or a printable ASCII character. *)
Definition is_plain (c : codepoint) : bool := (c =? 10) || ((32 <=? c) && (c <=? 126)).

(** The payload a continuation byte of a range may carry (the byte less
    128), as its least and greatest value. *)
Definition tail_bounds (r : tail_range) : N * N :=
  match r with
  | T80_BF => (0, 63)
  | TA0_BF => (32, 63)
  | T80_9F => (0, 31)
  | T90_BF => (16, 63)
  | T80_8F => (0, 15)
  end.

(** A decoder state from which only encodable code points can come out:
    the code points the bytes still to come can complete the sequence to all
    lie below the surrogates, or all above them and at most U+10FFFF. *)
Definition sound_state (st : dstate) : Prop :=
  match st with
  | Start => True
  | Pending more acc r =>
      let least := (acc * 64 + fst (tail_bounds r)) * 64 ^ N.of_nat more in
      let beyond := (acc * 64 + snd (tail_bounds r) + 1) * 64 ^ N.of_nat more in
      beyond <= 55296 \/ (57344 <= least /\ beyond <= 1114112)
  end.

(* ===================================================================== *)
(** * Properties *)
(* ===================================================================== *)

(** ** Lists and strings *)

Lemma skipn_length_app (A : Type) (l new : list A) :
  skipn (List.length l) (l ++ new) = new.
Proof.
  induction l as [|x l IH]; simpl; auto.
Qed.

Lemma contains_app (s t pre post : pystr) :
  contains s t -> contains (pre ++ s ++ post) t.
Proof.
  intros (a & b & ->). exists (pre ++ a), (b ++ post).
  now rewrite <- !app_assoc.
Qed.

Lemma contains_prefixed (s t pre : pystr) :
  contains s t -> contains (pre ++ s) t.
Proof.
  intros Hc. rewrite <- (app_nil_r s). now apply contains_app.
Qed.

Lemma str_eqb_eq (a b : pystr) : str_eqb a b = true <-> a = b.
Proof.
  revert b. induction a as [|x a IH]; intros [|y b]; simpl; try easy.
  rewrite andb_true_iff, N.eqb_eq, IH. split.
  - now intros [-> ->].
  - intros E. now injection E.
Qed.

(** ** The invoker *)

Section Invoker.
Context {H : Host}.

(** [run_volatility], one case per outcome of the spawn and of the wait. *)
Lemma run_volatility_cases (cmd_args : list pystr) (dir : pystr) (s : State) :
  run_volatility cmd_args dir s =
  let spy := calls s ++ [Spawn (command_of cmd_args) dir] in
  match spawn (command_of cmd_args) dir (now s) with
  | (Raise e, w1) =>
      (Ok (lit "Exception running Volatility: " ++ exc_str e), {| now := w1; calls := spy |})
  | (Ok p, w1) =>
      match wait p w1 with
      | (Raise e, w2) =>
          (Ok (lit "Exception running Volatility: " ++ exc_str e), {| now := w2; calls := spy |})
      | (Ok done, w2) => (Ok (text_of done), {| now := w2; calls := spy |})
      end
  end.
Proof.
  unfold run_volatility, try_except, bind, create_subprocess_exec, communicate,
    record, command_of, text_of, ret. simpl.
  destruct (spawn _ dir (now s)) as [[p|e] w1]; simpl; auto.
  destruct (wait p w1) as [[done|e] w2]; simpl; auto.
  destruct (negb _); reflexivity.
Qed.

(** [run_volatility] always returns a text and records exactly one spawn. *)
Lemma run_volatility_returns (cmd_args : list pystr) (dir : pystr) (s : State) :
  exists text w,
    run_volatility cmd_args dir s =
    (Ok text, {| now := w; calls := calls s ++ [Spawn (command_of cmd_args) dir] |}).
Proof.
  rewrite run_volatility_cases. simpl.
  destruct (spawn _ dir (now s)) as [[p|e] w1]; [|eauto].
  destruct (wait p w1) as [[done|e] w2]; eauto.
Qed.

End Invoker.

(** ** The decoder *)

Section Decoder.

Lemma lead_ascii (b : N) : b < 128 -> lead b = ([b], Start).
Proof.
  intros Hb. unfold lead. now apply N.ltb_lt in Hb as ->.
Qed.

Lemma tail_range_not_ascii (r : tail_range) (b : N) :
  b < 128 -> in_tail_range r b = false.
Proof.
  intros Hb. destruct r; simpl; apply andb_false_iff; left; apply N.leb_gt; lia.
Qed.

(** An ASCII byte is never taken as part of a longer sequence: whatever came
    before it, it is decoded as itself and leaves the decoder between
    characters. *)
Lemma decode_from_reaches_ascii (pre : list N) (a : N) (rest : list N) :
  a < 128 ->
  forall st, exists t, decode_from st (pre ++ a :: rest) = t ++ a :: decode_from Start rest.
Proof.
  intros Ha. induction pre as [|b pre IH]; intros st; simpl.
  - destruct st as [|more acc r].
    + rewrite (lead_ascii a Ha). now exists [].
    + rewrite (tail_range_not_ascii r a Ha), (lead_ascii a Ha). now exists [REPLACEMENT].
  - destruct st as [|more acc r].
    + destruct (lead b) as [out st']. destruct (IH st') as [t ->].
      exists (out ++ t). now rewrite app_assoc.
    + destruct (in_tail_range r b).
      * destruct more as [|more].
        -- destruct (IH Start) as [t ->]. now exists ((acc * 64 + (b - 128)) :: t).
        -- destruct (IH (Pending more (acc * 64 + (b - 128)) T80_BF)) as [t ->]. now exists t.
      * destruct (lead b) as [out st']. destruct (IH st') as [t ->].
        exists (REPLACEMENT :: out ++ t). simpl. now rewrite app_assoc.
Qed.

Lemma decode_from_ascii_run (run rest : list N) :
  Forall (fun a => a < 128) run ->
  decode_from Start (run ++ rest) = run ++ decode_from Start rest.
Proof.
  induction 1 as [|a run Ha _ IH]; simpl; auto.
  rewrite (lead_ascii a Ha). simpl. now rewrite IH.
Qed.

End Decoder.

(** ** Encoding and decoding *)

Section Roundtrip.

Local Ltac euclid := zify; Z.to_euclidean_division_equations; lia.

Local Ltac decide_tests :=
  repeat match goal with
         | |- context [?a <? ?b] =>
             destruct (N.ltb_spec a b); try (exfalso; euclid)
         | |- context [?a <=? ?b] =>
             destruct (N.leb_spec a b); try (exfalso; euclid)
         | |- context [?a =? ?b] =>
             destruct (N.eqb_spec a b); try (exfalso; euclid)
         end.

Local Ltac step :=
  unfold lead; decide_tests; cbn [decode_from app in_tail_range andb];
  decide_tests; cbn [decode_from app in_tail_range andb].

Lemma scalar_range (c : codepoint) :
  scalar c = true -> c < 55296 \/ 57344 <= c < 1114112.
Proof.
  unfold scalar. intros Hs.
  apply orb_true_iff in Hs as [Hs|Hs]; [left; now apply N.ltb_lt|right].
  apply andb_true_iff in Hs as [H1 H2].
  apply N.leb_le in H1. apply N.ltb_lt in H2. lia.
Qed.

(** Decoding the encoding of one code point gives the code point back and
    leaves the decoder between characters. *)
Lemma decode_encode_cp (c : codepoint) (rest : list N) :
  scalar c = true ->
  decode_from Start (encode_cp c ++ rest) = c :: decode_from Start rest.
Proof.
  intros Hc%scalar_range. unfold encode_cp.
  destruct (N.ltb_spec c 128).
  - cbn [app decode_from]. now rewrite lead_ascii.
  - destruct (N.ltb_spec c 2048).
    + cbn [app decode_from]. step. f_equal. euclid.
    + destruct (N.ltb_spec c 65536).
      * cbn [app decode_from]. step; step; f_equal; euclid.
      * cbn [app decode_from]. step; step; step; f_equal; euclid.
Qed.

Lemma encode_cp_bytes (c : codepoint) :
  scalar c = true -> Forall (fun b => b <= 255) (encode_cp c).
Proof.
  intros Hc%scalar_range. unfold encode_cp.
  destruct (N.ltb_spec c 128); [|destruct (N.ltb_spec c 2048); [|destruct (N.ltb_spec c 65536)]];
    repeat constructor; euclid.
Qed.

Lemma decode_from_encoded (text : pystr) (rest : list N) :
  forallb scalar text = true ->
  decode_from Start (flat_map encode_cp text ++ rest) = text ++ decode_from Start rest.
Proof.
  induction text as [|c text IH]; simpl; auto.
  intros [Hc Ht]%andb_true_iff.
  rewrite <- app_assoc, (decode_encode_cp c _ Hc), (IH Ht). reflexivity.
Qed.

Lemma to_N_byte_of_N (l : list N) :
  Forall (fun b => b <= 255) l -> map Byte.to_N (map byte_of_N l) = l.
Proof.
  induction 1 as [|b l Hb _ IH]; simpl; auto.
  rewrite IH. f_equal. unfold byte_of_N.
  destruct (Byte.of_N b) as [x|] eqn:E.
  - now apply Byte.to_of_N.
  - apply Byte.of_N_None_iff in E. lia.
Qed.

Lemma encoded_bytes (text : pystr) :
  forallb scalar text = true -> map Byte.to_N (encode text) = flat_map encode_cp text.
Proof.
  intros Ht. unfold encode. apply to_N_byte_of_N.
  induction text as [|c text IH]; simpl; [constructor|].
  apply andb_true_iff in Ht as [Hc Ht].
  apply Forall_app. split; [now apply encode_cp_bytes | now apply IH].
Qed.

(** Well-formed UTF-8 decodes to the text it encodes, unchanged. *)
Lemma decode_replace_encode (text : pystr) :
  forallb scalar text = true -> decode_replace (encode text) = text.
Proof.
  intros Ht. unfold decode_replace. rewrite (encoded_bytes text Ht).
  rewrite <- (app_nil_r (flat_map _ _)), (decode_from_encoded text [] Ht).
  simpl. apply app_nil_r.
Qed.

(** Such a byte between two well-formed texts is replaced by the placeholder,
    and the texts around it are decoded unchanged. *)
Lemma decode_replace_stray_byte (before after : pystr) (b : byte) :
  forallb scalar before = true -> forallb scalar after = true ->
  starts_nothing b = true ->
  decode_replace (encode before ++ [b] ++ encode after) = before ++ [REPLACEMENT] ++ after.
Proof.
  intros Hb Ha Hs. unfold decode_replace.
  rewrite !map_app, (encoded_bytes before Hb), (encoded_bytes after Ha).
  rewrite (decode_from_encoded before _ Hb). f_equal.
  cbn [map app decode_from].
  assert (E : lead (Byte.to_N b) = ([REPLACEMENT], Start)).
  { unfold starts_nothing in Hs. unfold lead.
    apply orb_true_iff in Hs as [[H1 H2]%andb_true_iff | H1].
    - apply N.leb_le in H1. apply N.ltb_lt in H2. decide_tests; reflexivity.
    - apply N.leb_le in H1. decide_tests; reflexivity. }
  rewrite E. cbn [app]. f_equal.
  rewrite <- (app_nil_r (flat_map _ _)), (decode_from_encoded after [] Ha).
  simpl. apply app_nil_r.
Qed.

(** The bytes of an ASCII literal are its characters. *)
Lemma ascii_bytes_values (s : string) : map Byte.to_N (ascii_bytes s) = lit s.
Proof.
  unfold ascii_bytes, lit. rewrite map_map. apply map_ext. intros a.
  apply Byte.to_of_N. symmetry. apply byte_of_ascii_via_N.
Qed.

(** ASCII text anywhere in the bytes shows up literally in the decoded text,
    whatever surrounds it. *)
Lemma decode_replace_keeps_ascii (pre post : list byte) (s : string) :
  is_ascii s = true ->
  contains (decode_replace (pre ++ ascii_bytes s ++ post)) (lit s).
Proof.
  intros Hs. unfold decode_replace. rewrite !map_app, ascii_bytes_values.
  unfold is_ascii in Hs. rewrite forallb_forall in Hs.
  destruct (lit s) as [|a run] eqn:E.
  - exists [], (decode_from Start (map Byte.to_N pre ++ [] ++ map Byte.to_N post)).
    reflexivity.
  - assert (Ha : a < 128) by (apply N.ltb_lt, Hs; now left).
    assert (Hrun : Forall (fun c => c < 128) run).
    { apply Forall_forall. intros c Hc. apply N.ltb_lt, Hs. now right. }
    cbn [app].
    destruct (decode_from_reaches_ascii (map Byte.to_N pre) a
                (run ++ map Byte.to_N post) Ha Start) as [t Et].
    exists t, (decode_from Start (map Byte.to_N post)).
    etransitivity; [exact Et|].
    f_equal. cbn [app]. f_equal. exact (decode_from_ascii_run run _ Hrun).
Qed.

End Roundtrip.


(** ** The record of calls *)

Section Records.
Context {H : Host}.

Lemma new_calls_unchanged (A : Type) (c : M A) (s : State) (r : Result A) :
  c s = (r, s) -> new_calls c s = [].
Proof.
  intros E. unfold new_calls. rewrite E. simpl.
  rewrite <- (app_nil_r (calls s)) at 2. apply skipn_length_app.
Qed.

Lemma new_calls_recorded (A : Type) (c : M A) (s : State) (r : Result A)
    (w : world) (new : list Call) :
  c s = (r, {| now := w; calls := calls s ++ new |}) -> new_calls c s = new.
Proof.
  intros E. unfold new_calls. rewrite E. simpl. apply skipn_length_app.
Qed.

(** A tool with a memory image that is no regular file returns the error
    text and leaves the state alone. *)
Lemma call_tool_missing_image (c : ToolCall) (p : pystr) (s : State) :
  image_path c = Some p ->
  isfile (now s) (normpath p) = false ->
  call_tool c s = (Ok (lit "Error: Memory dump file not found at " ++ normpath p), s).
Proof.
  intros Hp Hfile.
  destruct c; simpl in Hp; try discriminate Hp; injection Hp as ->;
    unfold call_tool, get_image_info, run_pstree, run_pslist, run_psscan, run_netscan,
      run_malfind, run_cmdline, run_dlllist, run_handles, run_filescan, run_memmap,
      run_custom_plugin, bind, os_path_isfile;
    rewrite Hfile; reflexivity.
Qed.

End Records.

(** ** The calls the tools record *)

Section ToolCalls.
Context {H : Host}.

Lemma run_volatility_calls (cmd_args : list pystr) (dir : pystr) (s : State) :
  new_calls (run_volatility cmd_args dir) s = [Spawn (command_of cmd_args) dir].
Proof.
  destruct (run_volatility_returns cmd_args dir s) as (text & w & E).
  now apply new_calls_recorded with (r := Ok text) (w := w).
Qed.

Lemma with_image_cases (p : pystr) (cmd_args : list pystr) (s : State) :
  with_image p cmd_args s =
  if isfile (now s) (normpath p) then run_volatility cmd_args VOLATILITY_DIR s
  else (Ok (lit "Error: Memory dump file not found at " ++ normpath p), s).
Proof.
  unfold with_image, bind, os_path_isfile.
  destruct (isfile (now s) (normpath p)); reflexivity.
Qed.

Lemma with_image_calls (p : pystr) (cmd_args : list pystr) (s : State) :
  new_calls (with_image p cmd_args) s =
  if isfile (now s) (normpath p) then [Spawn (command_of cmd_args) VOLATILITY_DIR] else [].
Proof.
  unfold new_calls. rewrite with_image_cases.
  destruct (isfile (now s) (normpath p)).
  - apply run_volatility_calls.
  - simpl. rewrite <- (app_nil_r (calls s)) at 2. apply skipn_length_app.
Qed.

(** Every tool with a memory image other than [run_malfind] is the check
    followed by the invocation on its arguments. *)
Lemma call_tool_with_image (c : ToolCall) (p : pystr) :
  image_path c = Some p ->
  (forall q d, c <> RunMalfind q d) ->
  call_tool c = with_image p (cmd_args_of c).
Proof.
  intros Hp Hc.
  destruct c; simpl in Hp; try discriminate Hp; injection Hp as ->;
    try reflexivity.
  now contradiction (Hc p dump_dir).
Qed.

(** The layout the specification gives a tool is the vector the tool builds. *)
Lemma command_layout (c : ToolCall) (l : Layout) :
  layout_of c = Some l ->
  command_of (cmd_args_of c) = layout_argv [VOLATILITY_PYTHON; VOLATILITY_SCRIPT] l.
Proof.
  destruct c; simpl; intros E; try discriminate E; injection E as <-;
    unfold layout_argv, command_of; simpl; try reflexivity.
  - destruct dump_dir as [[|x d]|]; reflexivity.
  - destruct pid; reflexivity.
  - destruct pid; reflexivity.
  - destruct additional_args; reflexivity.
Qed.

End ToolCalls.

(** ** [run_malfind], case by case *)

Section Malfind.
Context {H : Host}.

Lemma normpath_truthy (d : pystr) : truthy (normpath d) = true.
Proof.
  pose proof (normpath_nonempty d) as Hn. now destruct (normpath d).
Qed.

Lemma malfind_summary_state (result : pystr) (dump_dir : option pystr) (s : State) :
  snd (malfind_summary result dump_dir s) = s.
Proof.
  unfold malfind_summary, bind, os_path_exists, os_listdir, ret.
  destruct dump_dir as [d|]; [|reflexivity].
  destruct (truthy d); [|reflexivity].
  destruct (path_exists (now s) d); [|reflexivity].
  destruct (listdir d (now s)) as [[|f fs]|e]; reflexivity.
Qed.

(** The summary when the directory exists afterwards and has entries. *)
Lemma malfind_summary_counts (result d : pystr) (files : list pystr) (s : State) :
  truthy d = true ->
  path_exists (now s) d = true ->
  listdir d (now s) = Ok files ->
  files <> [] ->
  malfind_summary result (Some d) s =
  (Ok (result ++ [10; 10] ++ lit "Dumped " ++ str_of_nat (List.length files)
         ++ lit " suspicious memory sections to " ++ d), s).
Proof.
  intros Ht He Hl Hf.
  unfold malfind_summary, bind, os_path_exists, os_listdir, ret.
  rewrite Ht, He, Hl. destruct files; [contradiction|reflexivity].
Qed.

(** The [if dump_dir:] block for a directory that is given. *)
Lemma malfind_dump_dir_given (cmd_args : list pystr) (d : pystr) (s : State) :
  truthy d = true ->
  malfind_dump_dir cmd_args (Some d) s =
  let dir := normpath d in
  let ready := Ok (inr (cmd_args ++ [lit "--dump-dir"; dir], Some dir)) in
  if isdir (now s) dir then (ready, s)
  else match makedirs dir (now s) with
       | (Ok _, w1) => (ready, record (Makedirs dir) s w1)
       | (Raise e, w1) =>
           (Ok (inl (lit "Error creating dump directory: " ++ exc_str e)),
            record (Makedirs dir) s w1)
       end.
Proof.
  intros Ht. unfold malfind_dump_dir, bind, try_except, os_path_isdir, os_makedirs, ret.
  rewrite Ht. simpl.
  destruct (isdir (now s) (normpath d)); simpl; [reflexivity|].
  destruct (makedirs (normpath d) (now s)) as [[u|e] w1]; reflexivity.
Qed.

Lemma malfind_dump_dir_absent (cmd_args : list pystr) (dump_dir : option pystr) (s : State) :
  truthy_opt dump_dir = false ->
  malfind_dump_dir cmd_args dump_dir s = (Ok (inr (cmd_args, dump_dir)), s).
Proof.
  unfold malfind_dump_dir, ret. destruct dump_dir as [d|]; simpl; [|reflexivity].
  now intros ->.
Qed.

(** [run_malfind] past the image check, in terms of its three blocks. *)
Lemma run_malfind_found (p : pystr) (dump_dir : option pystr) (s : State) :
  isfile (now s) (normpath p) = true ->
  run_malfind p dump_dir s =
  match malfind_dump_dir [lit "-f"; normpath p; lit "windows.malfind.Malfind"] dump_dir s with
  | (Ok (inl message), s1) => (Ok message, s1)
  | (Ok (inr (cmd_args, dump_dir')), s1) =>
      match run_volatility cmd_args VOLATILITY_DIR s1 with
      | (Ok result, s2) => malfind_summary result dump_dir' s2
      | (Raise e, s2) => (Raise e, s2)
      end
  | (Raise e, s1) => (Raise e, s1)
  end.
Proof.
  intros Hf. unfold run_malfind, bind at 1, os_path_isfile. rewrite Hf. simpl.
  unfold bind at 1.
  destruct (malfind_dump_dir _ dump_dir s) as [[[m|[a dd]]|e] s1]; reflexivity.
Qed.

(** The invocation and the summary, from a state [s1] reached after [s0]
    with the calls [before] recorded in between. *)
Lemma malfind_invocation (cmd_args : list pystr) (dump_dir : option pystr)
    (s0 s1 : State) (before : list Call) :
  calls s1 = calls s0 ++ before ->
  exists r w,
    match run_volatility cmd_args VOLATILITY_DIR s1 with
    | (Ok result, s2) => malfind_summary result dump_dir s2
    | (Raise e, s2) => (Raise e, s2)
    end
    = (r, {| now := w;
             calls := calls s0 ++ before ++ [Spawn (command_of cmd_args) VOLATILITY_DIR] |}).
Proof.
  intros Hc.
  destruct (run_volatility_returns cmd_args VOLATILITY_DIR s1) as (text & w & ->).
  rewrite Hc, <- app_assoc.
  exists (fst (malfind_summary text dump_dir
                 {| now := w; calls := calls s0 ++ before ++ [Spawn (command_of cmd_args) VOLATILITY_DIR] |})), w.
  rewrite <- (malfind_summary_state text dump_dir
                {| now := w; calls := calls s0 ++ before ++ [Spawn (command_of cmd_args) VOLATILITY_DIR] |}) at 3.
  apply surjective_pairing.
Qed.

(** The calls [run_malfind] records past the image check. *)
Lemma run_malfind_calls (p : pystr) (dump_dir : option pystr) (s : State) :
  isfile (now s) (normpath p) = true ->
  let spawned := Spawn (command_of (cmd_args_of (RunMalfind p dump_dir))) VOLATILITY_DIR in
  new_calls (run_malfind p dump_dir) s =
  match dump_dir with
  | Some d =>
      if truthy d then
        if isdir (now s) (normpath d) then [spawned]
        else match makedirs (normpath d) (now s) with
             | (Ok _, _) => [Makedirs (normpath d); spawned]
             | (Raise _, _) => [Makedirs (normpath d)]
             end
      else [spawned]
  | None => [spawned]
  end.
Proof.
  intros Hf. simpl.
  assert (Habsent : truthy_opt dump_dir = false ->
            new_calls (run_malfind p dump_dir) s
            = [Spawn (command_of [lit "-f"; normpath p; lit "windows.malfind.Malfind"])
                 VOLATILITY_DIR]).
  { intros Hd. unfold new_calls. rewrite (run_malfind_found p dump_dir s Hf).
    rewrite (malfind_dump_dir_absent _ dump_dir s Hd).
    destruct (malfind_invocation [lit "-f"; normpath p; lit "windows.malfind.Malfind"]
                dump_dir s s [] (eq_sym (app_nil_r _))) as (r & w & ->).
    simpl. apply skipn_length_app. }
  destruct dump_dir as [d|]; [|now apply Habsent].
  destruct (truthy d) eqn:Ht; [|now apply Habsent].
  unfold new_calls. rewrite (run_malfind_found p (Some d) s Hf).
  rewrite (malfind_dump_dir_given _ d s Ht). cbv zeta.
  destruct (isdir (now s) (normpath d)).
  - destruct (malfind_invocation
                ([lit "-f"; normpath p; lit "windows.malfind.Malfind"]
                   ++ [lit "--dump-dir"; normpath d])
                (Some (normpath d)) s s [] (eq_sym (app_nil_r _))) as (r & w & ->).
    simpl. apply skipn_length_app.
  - destruct (makedirs (normpath d) (now s)) as [[u|e] w1].
    + destruct (malfind_invocation
                  ([lit "-f"; normpath p; lit "windows.malfind.Malfind"]
                     ++ [lit "--dump-dir"; normpath d])
                  (Some (normpath d)) s (record (Makedirs (normpath d)) s w1)
                  [Makedirs (normpath d)] eq_refl) as (r & w & ->).
      simpl. apply skipn_length_app.
    + simpl. apply skipn_length_app.
Qed.

End Malfind.

(** ** The file-system scanner *)

Section Scanner.
Context {H : Host}.

Lemma startswith_prefix (s pre : pystr) :
  startswith s pre = true <-> exists rest, s = pre ++ rest.
Proof.
  revert s. induction pre as [|c pre IH]; intros s; simpl.
  - split; [intros _; now exists s | intros _; now destruct s].
  - destruct s as [|x s]; simpl;
      [split; [discriminate | intros (rest & E); discriminate E]|].
    rewrite andb_true_iff, N.eqb_eq, IH. split.
    + intros (-> & rest & ->). now exists rest.
    + intros (rest & E). injection E as -> ->. split; [reflexivity | now exists rest].
Qed.

Lemma endswith_suffix (s suf : pystr) :
  endswith s suf = true <-> exists stem, s = stem ++ suf.
Proof.
  unfold endswith. rewrite startswith_prefix. split.
  - intros (rest & E). exists (rev rest).
    rewrite <- (rev_involutive s), E, rev_app_distr, rev_involutive. reflexivity.
  - intros (stem & ->). exists (rev stem). apply rev_app_distr.
Qed.

(** The test of the source is the specification's: the name ends with one of
    the extensions when letter case is ignored. *)
Lemma has_memory_extension_iff (file : pystr) :
  has_memory_extension file = true <->
  exists ext, In ext memory_extensions /\ ends_with_ignoring_case file ext.
Proof.
  unfold has_memory_extension, ends_with_ignoring_case.
  rewrite existsb_exists. split.
  - intros (ext & Hin & He). exists ext. split; [exact Hin|].
    apply endswith_suffix in He as (stem & He).
    unfold lower in He. apply map_eq_app in He as (l1 & l2 & -> & _ & E2).
    now exists l1, l2.
  - intros (ext & Hin & stem & tail & -> & E). exists ext. split; [exact Hin|].
    apply endswith_suffix. exists (lower stem).
    unfold lower in *. now rewrite map_app, E.
Qed.

Lemma scan_file_reported (root file : pystr) (memory_files : list pystr) (s : State) (n : N) :
  has_memory_extension file = true ->
  getsize (path_join root file) (now s) = Ok n ->
  scan_file root file memory_files s = (Ok (memory_files ++ [report_line root file n]), s).
Proof.
  intros He Hn. unfold scan_file, bind, os_path_getsize, ret. now rewrite He, Hn.
Qed.

Lemma scan_file_skipped (root file : pystr) (memory_files : list pystr) (s : State) :
  has_memory_extension file = false ->
  scan_file root file memory_files s = (Ok memory_files, s).
Proof.
  intros He. unfold scan_file, ret. now rewrite He.
Qed.

(** The scanner reads the file system and changes nothing. *)
Lemma scan_file_state (root file : pystr) (memory_files : list pystr) (s : State) :
  snd (scan_file root file memory_files s) = s.
Proof.
  unfold scan_file, bind, os_path_getsize, ret.
  destruct (has_memory_extension file); [|reflexivity].
  destruct (getsize _ (now s)); reflexivity.
Qed.

Lemma for_each_state (A B : Type) (body : A -> B -> M B) (xs : list A) :
  (forall x acc s, snd (body x acc s) = s) ->
  forall acc s, snd (for_each xs body acc s) = s.
Proof.
  intros Hb. induction xs as [|x xs IH]; intros acc s; simpl; [reflexivity|].
  unfold bind. specialize (Hb x acc s).
  destruct (body x acc s) as [[b|e] s']; simpl in Hb; subst s'; [apply IH | reflexivity].
Qed.

Lemma scan_directory_state (entry : pystr * list pystr * list pystr)
    (memory_files : list pystr) (s : State) :
  snd (scan_directory entry memory_files s) = s.
Proof.
  destruct entry as [[root dirs] files]. unfold scan_directory.
  apply for_each_state. intros. apply scan_file_state.
Qed.

Lemma list_memory_dumps_state (search_dir : option pystr) (s : State) :
  snd (list_memory_dumps search_dir s) = s.
Proof.
  unfold list_memory_dumps, bind at 1.
  assert (E : exists d, (if negb (truthy_opt search_dir) then os_getcwd
               else ret match search_dir with Some d => d | None => [] end) s = (Ok d, s)).
  { destruct (negb _); eexists; reflexivity. }
  destruct E as (d & ->). unfold bind at 1, os_path_isdir.
  destruct (isdir (now s) (normpath d)); [|reflexivity]. simpl.
  unfold bind at 1, os_walk. unfold bind.
  pose proof (for_each_state _ _ scan_directory (walk (normpath d) (now s))
                scan_directory_state [] s) as Hs.
  destruct (for_each _ scan_directory [] s) as [[[|l ls]|e] s']; simpl in Hs; subst s';
    reflexivity.
Qed.

(** The files of one directory, all sizes being readable. *)
Lemma scan_files_reported (size : pystr -> N) (root : pystr) (files : list pystr) (s : State) :
  (forall file, In file files -> has_memory_extension file = true ->
                getsize (path_join root file) (now s) = Ok (size (path_join root file))) ->
  forall memory_files,
    for_each files (scan_file root) memory_files s =
    (Ok (memory_files
           ++ map (fun file => report_line root file (size (path_join root file)))
                (filter has_memory_extension files)), s).
Proof.
  induction files as [|file files IH]; intros Hsz acc; simpl.
  - now rewrite app_nil_r.
  - unfold bind. destruct (has_memory_extension file) eqn:He.
    + rewrite (scan_file_reported root file acc s _ He (Hsz file (or_introl eq_refl) He)).
      rewrite IH by (intros f Hf; apply Hsz; now right).
      simpl. now rewrite <- app_assoc.
    + rewrite (scan_file_skipped root file acc s He).
      apply IH. intros f Hf. apply Hsz. now right.
Qed.

(** The whole walk, all sizes being readable. *)
Lemma scan_walk_reported (size : pystr -> N)
    (entries : list (pystr * list pystr * list pystr)) (s : State) :
  (forall root dirs files file,
      In (root, dirs, files) entries -> In file files ->
      has_memory_extension file = true ->
      getsize (path_join root file) (now s) = Ok (size (path_join root file))) ->
  forall memory_files,
    for_each entries scan_directory memory_files s =
    (Ok (memory_files
           ++ map (fun rf : pystr * pystr =>
                     report_line (fst rf) (snd rf) (size (path_join (fst rf) (snd rf))))
                (flat_map (fun entry : pystr * list pystr * list pystr =>
                             let '(root, _, files) := entry in
                             map (pair root) (filter has_memory_extension files))
                          entries)), s).
Proof.
  induction entries as [|[[root dirs] files] entries IH]; intros Hsz acc; simpl.
  - now rewrite app_nil_r.
  - unfold bind.
    rewrite (scan_files_reported size root files s)
      by (intros f Hf; apply (Hsz root dirs files); [now left | exact Hf]).
    rewrite IH by (intros r d fs f Hin; apply (Hsz r d fs); now right).
    rewrite map_app, map_map, <- app_assoc. reflexivity.
Qed.

Lemma candidates_found (w : world) (top root file : pystr) :
  In (root, file) (candidates w top) <->
  found_by_walk w top root file /\ has_memory_extension file = true.
Proof.
  unfold candidates, found_by_walk. rewrite in_flat_map. split.
  - intros ([[r dirs] files] & Hin & Hrf).
    apply in_map_iff in Hrf as (f & E & Hf). injection E as -> ->.
    apply filter_In in Hf as [Hf He]. split; [now exists dirs, files | exact He].
  - intros ((dirs & files & Hin & Hf) & He).
    exists (root, dirs, files). split; [exact Hin|].
    apply in_map, filter_In. now split.
Qed.

End Scanner.

(** ** Sizes in megabytes *)

Section Sizes.

(** Rounding to nearest: the result is within half a unit of the quotient. *)
Lemma round_half_even_nearest (num den : N) :
  0 < den ->
  let q := round_half_even num den in
  2 * q * den <= 2 * num + den /\ 2 * num <= 2 * q * den + den.
Proof.
  intros Hd q. subst q. unfold round_half_even. cbv zeta.
  pose proof (N.div_mod num den ltac:(lia)) as E.
  pose proof (N.mod_lt num den ltac:(lia)) as Hr.
  generalize dependent (num mod den). generalize dependent (num / den).
  intros q r E Hr. subst num.
  destruct (N.ltb_spec (2 * r) den); [nia|].
  destruct (N.ltb_spec den (2 * r)); [nia|].
  destruct (N.even q); nia.
Qed.

(** Below [2^53] bytes the size in megabytes is exact, and the two decimals
    printed are the nearest hundredth of [n / 1048576]. *)
Lemma size_in_hundredths (n : N) :
  n < 2 ^ 53 ->
  let h := hundredths (truediv n (1024 * 1024)) in
  format_2f (truediv n (1024 * 1024))
    = str_of_N (h / 100) ++ lit "." ++ two_digits (h mod 100)
  /\ 2 * h * 1048576 <= 200 * n + 1048576
  /\ 200 * n <= 2 * h * 1048576 + 1048576.
Proof.
  intros Hn. split; [reflexivity|].
  unfold hundredths, truediv, float_of_int. cbn [mant exp2].
  apply N.ltb_lt in Hn. rewrite Hn.
  change (2 ^ N.log2 (1024 * 1024)) with 1048576.
  pose proof (round_half_even_nearest (n * 100) 1048576 ltac:(lia)) as [H1 H2].
  cbv zeta in H1, H2. lia.
Qed.

End Sizes.

(** ** The plugin list *)

Section Plugins.

Lemma heading_not_blank (line : pystr) : is_heading line = true -> is_blank line = false.
Proof.
  unfold is_heading, is_blank. intros E%str_eqb_eq. now rewrite E.
Qed.

(** The loop while capturing: lines are taken up to the first blank line,
    heading lines among them being passed over. *)
Lemma scan_plugins_capturing (lines : list pystr) (plugins : list pystr) :
  scan_plugins lines true plugins =
  plugins ++ map strip (filter (fun line => negb (is_heading line)) (until_blank lines)).
Proof.
  revert plugins. induction lines as [|line rest IH]; intros plugins; simpl.
  - now rewrite app_nil_r.
  - fold (is_heading line). fold (is_blank line).
    destruct (is_heading line) eqn:Eh.
    + rewrite (heading_not_blank line Eh). simpl. rewrite Eh. simpl. apply IH.
    + destruct (is_blank line) eqn:Eb; simpl.
      * now rewrite app_nil_r.
      * rewrite Eh. simpl. rewrite IH, <- app_assoc. reflexivity.
Qed.

(** The loop before the heading: lines are passed over up to the heading. *)
Lemma scan_plugins_waiting (lines : list pystr) (plugins : list pystr) :
  scan_plugins lines false plugins = plugins ++ captured lines.
Proof.
  unfold captured. induction lines as [|line rest IH]; simpl.
  - now rewrite app_nil_r.
  - fold (is_heading line). destruct (is_heading line).
    + apply scan_plugins_capturing.
    + exact IH.
Qed.

(** Without a further heading line the capture is the one specified. *)
Lemma captured_without_repeat (lines : list pystr) :
  (forall line, In line (until_blank (after_heading lines)) -> is_heading line = false) ->
  captured lines = captured_as_specified lines.
Proof.
  intros Hno. unfold captured, captured_as_specified. f_equal.
  induction (until_blank (after_heading lines)) as [|line rest IH]; simpl; [reflexivity|].
  rewrite (Hno line (or_introl eq_refl)). simpl. f_equal.
  apply IH. intros l Hl. apply Hno. now right.
Qed.

End Plugins.

(** ** What the tools spawn *)

Section Spawns.
Context {H : Host}.

Lemma new_calls_same_state (A : Type) (c : M A) (s : State) :
  snd (c s) = s -> new_calls c s = [].
Proof.
  intros E. unfold new_calls. rewrite E.
  rewrite <- (app_nil_r (calls s)) at 2. apply skipn_length_app.
Qed.

(** Whatever a tool spawns, it spawns on the arguments of [cmd_args_of], in
    the installation directory; [list_memory_dumps] spawns nothing. *)
Lemma spawns_of_call (c : ToolCall) (s : State) (argv : list pystr) (dir : pystr) :
  In (Spawn argv dir) (new_calls (call_tool c) s) ->
  argv = command_of (cmd_args_of c) /\ dir = VOLATILITY_DIR /\ layout_of c <> None.
Proof.
  assert (Hone : forall new : list Call,
             new = [Spawn (command_of (cmd_args_of c)) VOLATILITY_DIR] \/ new = [] ->
             In (Spawn argv dir) new ->
             argv = command_of (cmd_args_of c) /\ dir = VOLATILITY_DIR).
  { intros new [-> | ->] Hin; [|contradiction].
    destruct Hin as [E|[]]. now injection E as <- <-. }
  assert (Himg : forall p, image_path c = Some p -> (forall q d, c <> RunMalfind q d) ->
             In (Spawn argv dir) (new_calls (call_tool c) s) ->
             argv = command_of (cmd_args_of c) /\ dir = VOLATILITY_DIR).
  { intros p Hp Hc. rewrite (call_tool_with_image c p Hp Hc), with_image_calls.
    apply Hone. destruct (isfile (now s) (normpath p)); auto. }
  destruct c;
    try (intros Hin; destruct (Himg memory_dump_path eq_refl ltac:(discriminate) Hin);
         repeat split; [assumption .. | discriminate]).
  - (* list_available_plugins *)
    simpl. unfold list_available_plugins. rewrite run_volatility_calls.
    intros Hin. destruct (Hone _ (or_introl eq_refl) Hin).
    repeat split; [assumption .. | discriminate].
  - (* run_malfind *)
    intros Hin. enough (argv = command_of (cmd_args_of (RunMalfind memory_dump_path dump_dir))
                        /\ dir = VOLATILITY_DIR) as [? ?]
      by (repeat split; [assumption .. | discriminate]).
    revert Hin.
    destruct (isfile (now s) (normpath memory_dump_path)) eqn:Hf.
    + change (call_tool (RunMalfind memory_dump_path dump_dir))
        with (run_malfind memory_dump_path dump_dir).
      rewrite (run_malfind_calls memory_dump_path dump_dir s Hf). cbv zeta.
      destruct dump_dir as [d|]; [|now apply Hone; left].
      destruct (truthy d); [|now apply Hone; left].
      destruct (isdir (now s) (normpath d)); [now apply Hone; left|].
      destruct (makedirs (normpath d) (now s)) as [[u|e] w1].
      * intros [E|Hin]; [discriminate E|]. revert Hin. now apply Hone; left.
      * intros [E|[]]. discriminate E.
    + rewrite (new_calls_unchanged _ _ s _
                 (call_tool_missing_image (RunMalfind memory_dump_path dump_dir)
                    memory_dump_path s eq_refl Hf)).
      intros [].
  - (* list_memory_dumps *)
    change (call_tool (ListMemoryDumps search_dir)) with (list_memory_dumps search_dir).
    rewrite (new_calls_same_state _ _ s (list_memory_dumps_state search_dir s)).
    intros [].
Qed.

End Spawns.

(** ** [list_memory_dumps], case by case *)

Section ScannerCases.
Context {H : Host}.

Lemma list_memory_dumps_cases (search_dir : option pystr) (s : State) :
  list_memory_dumps search_dir s =
  let top := resolved_directory (now s) search_dir in
  if isdir (now s) top then
    match for_each (walk top (now s)) scan_directory [] s with
    | (Ok [], s') => (Ok (lit "No memory dump files found in " ++ top), s')
    | (Ok (l :: ls), s') =>
        (Ok (lit "Found memory dump files:" ++ [10] ++ join [10] (l :: ls)), s')
    | (Raise e, s') => (Raise e, s')
    end
  else (Ok (lit "Error: Directory not found at " ++ top), s).
Proof.
  unfold list_memory_dumps, resolved_directory, bind at 1. cbv zeta.
  assert (E : (if negb (truthy_opt search_dir) then os_getcwd
               else ret match search_dir with Some d => d | None => [] end) s
              = (Ok match search_dir with
                    | Some (c :: d) => c :: d
                    | Some [] | None => getcwd (now s)
                    end, s)).
  { destruct search_dir as [[|c d]|]; reflexivity. }
  rewrite E. unfold bind at 1, os_path_isdir.
  destruct (isdir (now s) _); [|reflexivity]. simpl.
  unfold bind at 1, os_walk. unfold bind.
  destruct (for_each _ scan_directory [] s) as [[[|l ls]|e] s']; reflexivity.
Qed.

End ScannerCases.

(* ===================================================================== *)
(** * The claims *)
(* ===================================================================== *)

Section Claims.
Context {H : Host}.

(** C1. For each of the twelve tools that take a memory-image path: when the
    normalized path is not an existing regular file, the tool returns
    ["Error: Memory dump file not found at "] followed by the normalized
    path, and leaves the state as it found it: no call is recorded, so no
    process is spawned and [run_volatility] is not reached. *)
Theorem missing_image_short_circuits (c : ToolCall) (p : pystr) (s : State) :
  image_path c = Some p ->
  isfile (now s) (normpath p) = false ->
  call_tool c s = (Ok (lit "Error: Memory dump file not found at " ++ normpath p), s)
  /\ new_calls (call_tool c) s = [].
Proof.
  intros Hp Hfile.
  pose proof (call_tool_missing_image c p s Hp Hfile) as E.
  split; [exact E|]. exact (new_calls_unchanged _ _ s _ E).
Qed.

(** C2. Whatever tool is called with whatever parameters, every argument
    vector it spawns has the layout of the invariant: the interpreter and the
    entry script, then [-f] and the normalized image path when the tool takes
    an image, then the subcommand of the tool (the plugin name given by the
    caller for [run_custom_plugin]), then the dump-directory flag, the
    process-identifier flag and the additional arguments, in this order, each
    only when the call supplies it.  The child runs in the installation
    directory. *)
Theorem argument_vector_layout (c : ToolCall) (s : State)
    (argv : list pystr) (dir : pystr) :
  In (Spawn argv dir) (new_calls (call_tool c) s) ->
  exists l,
    layout_of c = Some l
    /\ argv = layout_argv [VOLATILITY_PYTHON; VOLATILITY_SCRIPT] l
    /\ dir = VOLATILITY_DIR.
Proof.
  intros Hin. destruct (spawns_of_call c s argv dir Hin) as (-> & -> & Hl).
  destruct (layout_of c) as [l|] eqn:E; [|contradiction].
  exists l. repeat split. now apply command_layout.
Qed.

(** C3. When the child terminates with a non-zero exit code, [run_volatility]
    returns exactly ["Error running Volatility command: "] followed by the
    decoded standard error.  Hence whatever occurs in the decoded standard
    error occurs in the returned text, and any ASCII word among the bytes the
    child wrote to standard error (such as [boom]) occurs in it literally. *)
Theorem nonzero_exit_reports_stderr
    (cmd_args : list pystr) (dir : pystr) (s : State)
    (p : process) (w1 w2 : world) (done : Completed) :
  spawn (command_of cmd_args) dir (now s) = (Ok p, w1) ->
  wait p w1 = (Ok done, w2) ->
  returncode done <> 0%Z ->
  exists text,
    returned (run_volatility cmd_args dir) s = Ok text
    /\ text = lit "Error running Volatility command: " ++ decode_replace (stderr done)
    /\ (forall t, contains (decode_replace (stderr done)) t -> contains text t)
    /\ (forall pre post word,
          is_ascii word = true ->
          stderr done = pre ++ ascii_bytes word ++ post ->
          contains text (lit word)).
Proof.
  intros Hspawn Hwait Hrc.
  exists (lit "Error running Volatility command: " ++ decode_replace (stderr done)).
  assert (E : text_of done
              = lit "Error running Volatility command: " ++ decode_replace (stderr done)).
  { unfold text_of. destruct (Z.eqb_spec (returncode done) 0); [contradiction|reflexivity]. }
  repeat split.
  - unfold returned. rewrite run_volatility_cases. simpl.
    rewrite Hspawn, Hwait. simpl. now rewrite E.
  - intros t Ht. now apply contains_prefixed.
  - intros pre post word Hword Herr. apply contains_prefixed.
    rewrite Herr. now apply decode_replace_keeps_ascii.
Qed.

(** C4. [run_volatility] is total: on every input it returns a text and never
    raises.  When spawning the child raises, or waiting for it does, the text
    is ["Exception running Volatility: "] followed by the description of the
    exception. *)
Theorem run_volatility_total (cmd_args : list pystr) (dir : pystr) (s : State) :
  exists text s',
    run_volatility cmd_args dir s = (Ok text, s')
    /\ (forall e w1,
          spawn (command_of cmd_args) dir (now s) = (Raise e, w1) ->
          text = lit "Exception running Volatility: " ++ exc_str e)
    /\ (forall p w1 e w2,
          spawn (command_of cmd_args) dir (now s) = (Ok p, w1) ->
          wait p w1 = (Raise e, w2) ->
          text = lit "Exception running Volatility: " ++ exc_str e).
Proof.
  rewrite run_volatility_cases. simpl.
  destruct (spawn _ dir (now s)) as [[p|e] w1].
  - destruct (wait p w1) as [[done|e] w2] eqn:Ew.
    + do 2 eexists. split; [reflexivity|]. split.
      * intros e w1' E. discriminate E.
      * intros p' w1' e w2' E. injection E as <- <-. rewrite Ew. discriminate.
    + do 2 eexists. split; [reflexivity|]. split.
      * intros e' w1' E. discriminate E.
      * intros p' w1' e' w2' E. injection E as <- <-. rewrite Ew.
        intros E'. now injection E' as <- _.
  - do 2 eexists. split; [reflexivity|]. split.
    + intros e' w1' E. now injection E as <- _.
    + intros p' w1' e' w2' E. discriminate E.
Qed.

(** C5. When the child terminates with exit code zero, [run_volatility]
    returns the captured standard output decoded as UTF-8.  Well-formed
    output comes back as the very text it encodes; a byte that can start no
    character comes back as the placeholder U+FFFD, with the text around it
    unchanged, and the operation still returns. *)
Theorem zero_exit_returns_stdout
    (cmd_args : list pystr) (dir : pystr) (s : State)
    (p : process) (w1 w2 : world) (done : Completed) :
  spawn (command_of cmd_args) dir (now s) = (Ok p, w1) ->
  wait p w1 = (Ok done, w2) ->
  returncode done = 0%Z ->
  returned (run_volatility cmd_args dir) s = Ok (decode_replace (stdout done))
  /\ (forall text,
        forallb scalar text = true ->
        stdout done = encode text ->
        returned (run_volatility cmd_args dir) s = Ok text)
  /\ (forall before after b,
        forallb scalar before = true -> forallb scalar after = true ->
        starts_nothing b = true ->
        stdout done = encode before ++ [b] ++ encode after ->
        returned (run_volatility cmd_args dir) s = Ok (before ++ [REPLACEMENT] ++ after)).
Proof.
  intros Hspawn Hwait Hrc.
  assert (E : returned (run_volatility cmd_args dir) s = Ok (decode_replace (stdout done))).
  { unfold returned. rewrite run_volatility_cases. simpl.
    rewrite Hspawn, Hwait. simpl. unfold text_of. now rewrite Hrc. }
  split; [exact E|]. split.
  - intros text Ht Hout. rewrite E, Hout. now rewrite decode_replace_encode.
  - intros before after b Hb Ha Hs Hout. rewrite E, Hout.
    now rewrite decode_replace_stray_byte.
Qed.

(** C6. [run_dlllist] and [run_handles], the image being there, spawn the
    vector that ends with the subcommand followed by the process-identifier
    flag: the flag is [--pid <pid>] when an identifier is supplied (zero
    included) and nothing at all when none is.  The vector depends on the
    parameters only: from any other state in which the image is there, the
    same call spawns the same vector. *)
Theorem pid_flag_iff_supplied (p : pystr) (pid : option Z) (s : State) :
  isfile (now s) (normpath p) = true ->
  new_calls (run_dlllist p pid) s =
    [Spawn (command_of ([lit "-f"; normpath p; lit "windows.dlllist.DllList"] ++ pid_flag pid))
       VOLATILITY_DIR]
  /\ new_calls (run_handles p pid) s =
    [Spawn (command_of ([lit "-f"; normpath p; lit "windows.handles.Handles"] ++ pid_flag pid))
       VOLATILITY_DIR]
  /\ (pid_flag pid = [] <-> pid = None)
  /\ (forall n, pid = Some n -> pid_flag pid = [lit "--pid"; str_of_Z n])
  /\ (forall s', isfile (now s') (normpath p) = true ->
        new_calls (run_dlllist p pid) s' = new_calls (run_dlllist p pid) s
        /\ new_calls (run_handles p pid) s' = new_calls (run_handles p pid) s).
Proof.
  intros Hf.
  assert (Hd : forall s0, isfile (now s0) (normpath p) = true ->
             new_calls (run_dlllist p pid) s0 =
             [Spawn (command_of ([lit "-f"; normpath p; lit "windows.dlllist.DllList"]
                                   ++ pid_flag pid)) VOLATILITY_DIR]).
  { intros s0 H0.
    change (run_dlllist p pid) with (with_image p (cmd_args_of (RunDlllist p pid))).
    rewrite with_image_calls, H0. destruct pid; reflexivity. }
  assert (Hh : forall s0, isfile (now s0) (normpath p) = true ->
             new_calls (run_handles p pid) s0 =
             [Spawn (command_of ([lit "-f"; normpath p; lit "windows.handles.Handles"]
                                   ++ pid_flag pid)) VOLATILITY_DIR]).
  { intros s0 H0.
    change (run_handles p pid) with (with_image p (cmd_args_of (RunHandles p pid))).
    rewrite with_image_calls, H0. destruct pid; reflexivity. }
  split; [now apply Hd|]. split; [now apply Hh|]. split; [|split].
  - destruct pid; simpl; split; intros E; try reflexivity; discriminate E.
  - intros n ->. reflexivity.
  - intros s' Hf'. now rewrite !Hd, !Hh.
Qed.

(** C7. [run_malfind] with a dump directory, the image being there.  A
    directory that is there already is used as it is.  One that is not is
    created with [os.makedirs], which creates the missing parents as well,
    before the tool is invoked with [--dump-dir].  When the creation raises,
    the tool returns ["Error creating dump directory: "] followed by the
    description and spawns nothing.  When the invocation then succeeds and
    the directory, listed afterwards, has entries, the returned text is the
    output of the tool followed by a blank line and the line
    ["Dumped <count> suspicious memory sections to <directory>"], the count
    being the number of direct entries of the directory. *)
Theorem malfind_dump_directory (p d : pystr) (s : State) :
  isfile (now s) (normpath p) = true ->
  truthy d = true ->
  let dir := normpath d in
  let argv :=
    command_of [lit "-f"; normpath p; lit "windows.malfind.Malfind"; lit "--dump-dir"; dir] in
  (isdir (now s) dir = true ->
     new_calls (run_malfind p (Some d)) s = [Spawn argv VOLATILITY_DIR])
  /\ (forall w1,
        isdir (now s) dir = false -> makedirs dir (now s) = (Ok tt, w1) ->
        new_calls (run_malfind p (Some d)) s = [Makedirs dir; Spawn argv VOLATILITY_DIR]
        /\ isdir w1 dir = true)
  /\ (forall e w1,
        isdir (now s) dir = false -> makedirs dir (now s) = (Raise e, w1) ->
        run_malfind p (Some d) s
          = (Ok (lit "Error creating dump directory: " ++ exc_str e),
             {| now := w1; calls := calls s ++ [Makedirs dir] |})
        /\ filter is_spawn (new_calls (run_malfind p (Some d)) s) = [])
  /\ (forall w1 child w2 done w3 files,
        (isdir (now s) dir = true /\ w1 = now s)
        \/ (isdir (now s) dir = false /\ makedirs dir (now s) = (Ok tt, w1)) ->
        spawn argv VOLATILITY_DIR w1 = (Ok child, w2) ->
        wait child w2 = (Ok done, w3) ->
        returncode done = 0%Z ->
        path_exists w3 dir = true ->
        listdir dir w3 = Ok files ->
        files <> [] ->
        returned (run_malfind p (Some d)) s
          = Ok (decode_replace (stdout done) ++ [10; 10] ++ lit "Dumped "
                  ++ str_of_nat (List.length files)
                  ++ lit " suspicious memory sections to " ++ dir)).
Proof.
  intros Hf Ht dir argv.
  pose proof (run_malfind_calls p (Some d) s Hf) as Hcalls.
  cbv zeta in Hcalls. cbn [cmd_args_of] in Hcalls. rewrite Ht in Hcalls.
  change (command_of _) with argv in Hcalls. fold dir in Hcalls.
  split; [|split; [|split]].
  - intros Hd. now rewrite Hcalls, Hd.
  - intros w1 Hd Hm. rewrite Hcalls, Hd, Hm. split; [reflexivity|].
    exact (makedirs_creates dir (now s) w1 Hm).
  - intros e w1 Hd Hm. split.
    + rewrite (run_malfind_found p (Some d) s Hf), (malfind_dump_dir_given _ d s Ht).
      cbv zeta. fold dir. now rewrite Hd, Hm.
    + now rewrite Hcalls, Hd, Hm.
  - intros w1 child w2 done w3 files Hready Hspawn Hwait Hrc He Hl Hfiles.
    unfold returned.
    rewrite (run_malfind_found p (Some d) s Hf), (malfind_dump_dir_given _ d s Ht).
    cbv zeta. fold dir.
    assert (Hrun : forall s1, now s1 = w1 ->
               match run_volatility
                       ([lit "-f"; normpath p; lit "windows.malfind.Malfind"]
                          ++ [lit "--dump-dir"; dir]) VOLATILITY_DIR s1 with
               | (Ok result, s2) => malfind_summary result (Some dir) s2
               | (Raise e, s2) => (Raise e, s2)
               end
               = (Ok (decode_replace (stdout done) ++ [10; 10] ++ lit "Dumped "
                        ++ str_of_nat (List.length files)
                        ++ lit " suspicious memory sections to " ++ dir),
                  {| now := w3;
                     calls := calls s1 ++ [Spawn argv VOLATILITY_DIR] |})).
    { intros s1 Hs1. rewrite run_volatility_cases. cbv zeta.
      change (command_of _) with argv. rewrite Hs1, Hspawn, Hwait.
      unfold text_of. rewrite Hrc. cbn [Z.eqb negb].
      apply malfind_summary_counts; auto. apply normpath_truthy. }
    destruct Hready as [[Hd ->] | [Hd Hm]].
    + rewrite Hd. now rewrite (Hrun s eq_refl).
    + rewrite Hd, Hm. now rewrite (Hrun (record (Makedirs dir) s w1) eq_refl).
Qed.

(** C8, as amended.  From a help text, [get_volatility_plugins] ignores the
    lines up to the first one whose trimmed content is exactly [Plugins],
    then captures, trimmed, every line up to but without the first blank
    line, except further lines whose trimmed content is exactly [Plugins],
    which it passes over; nothing after that blank line is captured.  The
    captured names are returned as a JSON array.  When no further heading
    line stands before the blank line, these are all the lines in between. *)
Theorem plugin_names_captured (s : State) :
  (forall output, plugins_of_help output = dumps_list_indent2 (captured (split_on 10 output)))
  /\ (exists output s',
        run_volatility [lit "-h"] VOLATILITY_DIR s = (Ok output, s')
        /\ get_volatility_plugins s
           = (Ok (dumps_list_indent2 (captured (split_on 10 output))), s'))
  /\ (forall lines,
        (forall line, In line (until_blank (after_heading lines)) -> is_heading line = false) ->
        captured lines = captured_as_specified lines).
Proof.
  assert (Hp : forall output,
             plugins_of_help output = dumps_list_indent2 (captured (split_on 10 output))).
  { intros output. unfold plugins_of_help. now rewrite scan_plugins_waiting. }
  split; [exact Hp|]. split; [|exact captured_without_repeat].
  destruct (run_volatility_returns [lit "-h"] VOLATILITY_DIR s) as (output & w & E).
  exists output, {| now := w; calls := calls s ++ [Spawn (command_of [lit "-h"]) VOLATILITY_DIR] |}.
  split; [exact E|].
  unfold get_volatility_plugins, bind, ret. now rewrite E, Hp.
Qed.

(** C9. [list_memory_dumps] on an existing directory, the sizes of the files
    it reports being readable.  A file found by the walk is reported if and
    only if its name ends, letter case ignored, with one of [.raw], [.vmem],
    [.dmp], [.mem], [.bin], [.img], [.001], [.dump].  The report has one line
    per such file, in the order of the walk, with the size divided by
    1,048,576 and printed with two decimals (the nearest hundredth, for a
    size below [2^53] bytes); when there is no such file the text
    ["No memory dump files found in <directory>"] is returned instead. *)
Theorem list_memory_dumps_report (search_dir : option pystr) (s : State)
    (size : pystr -> N) :
  let top := resolved_directory (now s) search_dir in
  let lines :=
    map (fun rf : pystr * pystr =>
           report_line (fst rf) (snd rf) (size (path_join (fst rf) (snd rf))))
        (candidates (now s) top) in
  isdir (now s) top = true ->
  (forall root file,
      In (root, file) (candidates (now s) top) ->
      getsize (path_join root file) (now s) = Ok (size (path_join root file))) ->
  (forall root file,
      In (root, file) (candidates (now s) top) <->
      found_by_walk (now s) top root file
      /\ exists ext, In ext memory_extensions /\ ends_with_ignoring_case file ext)
  /\ list_memory_dumps search_dir s
     = (Ok match lines with
           | [] => lit "No memory dump files found in " ++ top
           | _ :: _ => lit "Found memory dump files:" ++ [10] ++ join [10] lines
           end, s)
  /\ (forall n, n < 2 ^ 53 ->
        let h := hundredths (truediv n (1024 * 1024)) in
        format_2f (truediv n (1024 * 1024))
          = str_of_N (h / 100) ++ lit "." ++ two_digits (h mod 100)
        /\ 2 * h * 1048576 <= 200 * n + 1048576
        /\ 200 * n <= 2 * h * 1048576 + 1048576).
Proof.
  intros top lines Hd Hsz. split; [|split].
  - intros root file. rewrite candidates_found, has_memory_extension_iff. reflexivity.
  - rewrite list_memory_dumps_cases. cbv zeta. fold top. rewrite Hd.
    rewrite (scan_walk_reported size (walk top (now s)) s).
    + simpl. fold (candidates (now s) top). fold lines. now destruct lines.
    + intros root dirs files file Hin Hfile He. apply Hsz.
      apply candidates_found. split; [now exists dirs, files | exact He].
  - exact size_in_hundredths.
Qed.

(** C10. In [list_memory_dumps] a search directory that is [None] or the
    empty string stands for the current working directory: the call behaves
    as the call on that directory.  The text
    ["Error: Directory not found at <path>"] is returned exactly when the
    directory searched, normalized, is not an existing directory, and the
    path it names is that directory. *)
Theorem list_memory_dumps_default_directory (s : State) :
  list_memory_dumps None s = list_memory_dumps (Some (getcwd (now s))) s
  /\ list_memory_dumps (Some []) s = list_memory_dumps (Some (getcwd (now s))) s
  /\ resolved_directory (now s) None = normpath (getcwd (now s))
  /\ resolved_directory (now s) (Some []) = normpath (getcwd (now s))
  /\ (forall search_dir,
        let top := resolved_directory (now s) search_dir in
        (isdir (now s) top = false ->
           list_memory_dumps search_dir s
           = (Ok (lit "Error: Directory not found at " ++ top), s))
        /\ (forall path,
              returned (list_memory_dumps search_dir) s
              = Ok (lit "Error: Directory not found at " ++ path) ->
              isdir (now s) top = false)).
Proof.
  assert (Hcwd : resolved_directory (now s) (Some (getcwd (now s))) = normpath (getcwd (now s))).
  { unfold resolved_directory. now destruct (getcwd (now s)). }
  split; [|split; [|split; [|split]]]; try reflexivity.
  - rewrite !list_memory_dumps_cases. cbv zeta. now rewrite Hcwd.
  - rewrite !list_memory_dumps_cases. cbv zeta. now rewrite Hcwd.
  - intros search_dir top. split.
    + intros Hd. rewrite list_memory_dumps_cases. cbv zeta. fold top. now rewrite Hd.
    + intros path. unfold returned. rewrite list_memory_dumps_cases. cbv zeta. fold top.
      destruct (isdir (now s) top); [|reflexivity].
      destruct (for_each _ scan_directory [] s) as [[[|l ls]|e] s']; simpl;
        intros E; discriminate E.
Qed.

End Claims.

(* ===================================================================== *)
(** * The claims on the concrete host *)
(* ===================================================================== *)

Section Concrete.
Import Toy.

(** C1 at a path that is no file: [run_pslist] answers with the error text
    and the state, with its empty record of calls, is unchanged. *)
Lemma missing_image_short_circuits_witness :
  call_tool (RunPslist (lit "nope.raw")) (boot (machine (echoes "PID 4") true))
  = (Ok (lit "Error: Memory dump file not found at nope.raw"),
     boot (machine (echoes "PID 4") true))
  /\ new_calls (call_tool (RunPslist (lit "nope.raw"))) (boot (machine (echoes "PID 4") true))
     = [].
Proof.
  exact (missing_image_short_circuits (RunPslist (lit "nope.raw")) (lit "nope.raw")
           (boot (machine (echoes "PID 4") true)) eq_refl eq_refl).
Defined.

(** C2 at a custom plugin with additional arguments. *)
Lemma argument_vector_layout_witness :
  exists l,
    layout_of (RunCustomPlugin (lit "mem.raw") (lit "windows.svcscan.SvcScan")
                 (lit "--pid 4  -r json"))
    = Some l
    /\ [lit "python"; VOLATILITY_SCRIPT; lit "-f"; lit "mem.raw";
        lit "windows.svcscan.SvcScan"; lit "--pid"; lit "4"; lit "-r"; lit "json"]
       = layout_argv [VOLATILITY_PYTHON; VOLATILITY_SCRIPT] l
    /\ VOLATILITY_DIR = VOLATILITY_DIR.
Proof.
  apply (argument_vector_layout
           (RunCustomPlugin (lit "mem.raw") (lit "windows.svcscan.SvcScan")
              (lit "--pid 4  -r json"))
           (boot (machine (echoes "services") true))).
  vm_compute. left. reflexivity.
Defined.

(** C3 at a program that exits with code 1 after writing [boom]. *)
Lemma nonzero_exit_reports_stderr_witness :
  exists text,
    returned (run_volatility [lit "-h"] VOLATILITY_DIR) (boot (machine (fails_with "boom") true))
    = Ok text
    /\ text = lit "Error running Volatility command: boom"
    /\ contains text (lit "boom").
Proof.
  destruct (nonzero_exit_reports_stderr [lit "-h"] VOLATILITY_DIR
              (boot (machine (fails_with "boom") true))
              {| stdout := []; stderr := ascii_bytes "boom"; returncode := 1 |}
              (with_nodes (machine (fails_with "boom") true)
                 (tool_writes (machine (fails_with "boom") true)
                    ++ nodes (machine (fails_with "boom") true)))
              (with_nodes (machine (fails_with "boom") true)
                 (tool_writes (machine (fails_with "boom") true)
                    ++ nodes (machine (fails_with "boom") true)))
              {| stdout := []; stderr := ascii_bytes "boom"; returncode := 1 |}
              eq_refl eq_refl ltac:(discriminate))
    as (text & Hr & Ht & _ & Hword).
  exists text. split; [exact Hr|]. split; [exact Ht|].
  apply (Hword [] [] "boom"%string); reflexivity.
Defined.

(** C5 at a program that exits with code 0 after writing [PID 4]. *)
Lemma zero_exit_returns_stdout_witness :
  returned (run_volatility [lit "-f"; lit "mem.raw"; lit "windows.pslist.PsList"] VOLATILITY_DIR)
    (boot (machine (echoes "PID 4") true))
  = Ok (lit "PID 4").
Proof.
  apply (zero_exit_returns_stdout
           [lit "-f"; lit "mem.raw"; lit "windows.pslist.PsList"] VOLATILITY_DIR
           (boot (machine (echoes "PID 4") true))
           {| stdout := ascii_bytes "PID 4"; stderr := []; returncode := 0 |}
           (with_nodes (machine (echoes "PID 4") true)
              (tool_writes (machine (echoes "PID 4") true)
                 ++ nodes (machine (echoes "PID 4") true)))
           (with_nodes (machine (echoes "PID 4") true)
              (tool_writes (machine (echoes "PID 4") true)
                 ++ nodes (machine (echoes "PID 4") true)))
           {| stdout := ascii_bytes "PID 4"; stderr := []; returncode := 0 |}
           eq_refl eq_refl eq_refl); reflexivity.
Defined.

(** C6 at process identifier 0, which is supplied and so is sent. *)
Lemma pid_flag_iff_supplied_witness :
  new_calls (run_dlllist (lit "mem.raw") (Some 0%Z)) (boot (machine (echoes "dlls") true))
  = [Spawn [lit "python"; VOLATILITY_SCRIPT; lit "-f"; lit "mem.raw";
            lit "windows.dlllist.DllList"; lit "--pid"; lit "0"] VOLATILITY_DIR].
Proof.
  exact (proj1 (pid_flag_iff_supplied (lit "mem.raw") (Some 0%Z)
                  (boot (machine (echoes "dlls") true)) eq_refl)).
Defined.

(** C7 at a directory that has to be created and receives one file. *)
Lemma malfind_dump_directory_witness :
  returned (run_malfind (lit "mem.raw") (Some (lit "out")))
    (boot (machine (echoes "hits") true))
  = Ok (lit "hits" ++ [10; 10] ++ lit "Dumped 1 suspicious memory sections to out").
Proof.
  apply (proj2 (proj2 (proj2
           (malfind_dump_directory (lit "mem.raw") (lit "out")
              (boot (machine (echoes "hits") true)) eq_refl eq_refl)))
           (with_nodes (machine (echoes "hits") true)
              ((lit "out", Dir []) :: nodes (machine (echoes "hits") true)))
           {| stdout := ascii_bytes "hits"; stderr := []; returncode := 0 |}
           (with_nodes (machine (echoes "hits") true)
              (tool_writes (machine (echoes "hits") true)
                 ++ (lit "out", Dir []) :: nodes (machine (echoes "hits") true)))
           {| stdout := ascii_bytes "hits"; stderr := []; returncode := 0 |}
           (with_nodes (machine (echoes "hits") true)
              (tool_writes (machine (echoes "hits") true)
                 ++ (lit "out", Dir []) :: nodes (machine (echoes "hits") true)))
           [lit "pid.4.0x1000.dmp"]).
  - right. split; reflexivity.
  - reflexivity.
  - reflexivity.
  - reflexivity.
  - reflexivity.
  - reflexivity.
  - discriminate.
Defined.

(** The counterexample to C8 as stated: with a second heading line before
    the blank line, the source does not capture every line in between. *)
Lemma repeated_heading_not_captured :
  plugins_of_help
    (join [10] [lit "usage"; lit "Plugins"; lit "  a"; lit "  Plugins"; lit "  b"; lit "";
                lit "z"])
  <> dumps_list_indent2
       (captured_as_specified
          [lit "usage"; lit "Plugins"; lit "  a"; lit "  Plugins"; lit "  b"; lit ""; lit "z"]).
Proof.
  vm_compute. discriminate.
Qed.

(** C9 at a directory with [a.dmp], [b.txt] and [c.RAW]. *)
Lemma list_memory_dumps_report_witness :
  list_memory_dumps None (boot (machine missing false))
  = (Ok (join [10] [lit "Found memory dump files:";
                    lit "dumps/a.dmp (Size: 0.12 MB)";
                    lit "dumps/c.RAW (Size: 1.18 MB)"]),
     boot (machine missing false)).
Proof.
  refine (proj1 (proj2
            (list_memory_dumps_report None (boot (machine missing false)) sizes eq_refl _))).
  intros root file Hin. vm_compute in Hin.
  destruct Hin as [E|[E|[]]]; injection E as <- <-; reflexivity.
Defined.

End Concrete.

(* ===================================================================== *)
(** * Further properties *)
(* ===================================================================== *)

Section ToolsEndToEnd.
Context {H : Host}.

Lemma plain_tool_cases (c : ToolCall) (s : State) :
  plain_tool c = true ->
  call_tool c s = run_volatility (cmd_args_of c) VOLATILITY_DIR s
  \/ exists p, image_path c = Some p
               /\ isfile (now s) (normpath p) = false
               /\ call_tool c s
                  = (Ok (lit "Error: Memory dump file not found at " ++ normpath p), s).
Proof.
  intros Hc. destruct (image_path c) as [p|] eqn:Hp.
  - assert (Hm : forall q d, c <> RunMalfind q d)
      by (intros q d ->; discriminate Hc).
    rewrite (call_tool_with_image c p Hp Hm), with_image_cases.
    destruct (isfile (now s) (normpath p)) eqn:Hf; [now left|right].
    exists p. auto.
  - left. destruct c; try discriminate Hp; try discriminate Hc. reflexivity.
Qed.

(** X1. A plain tool never raises: whatever the host does, it returns a
    text.  When its image is there (or it takes none), the text and the state
    it leaves are those of [run_volatility] on its arguments. *)
Theorem plain_tools_never_raise (c : ToolCall) (s : State) :
  plain_tool c = true ->
  (exists text s', call_tool c s = (Ok text, s'))
  /\ ((forall p, image_path c = Some p -> isfile (now s) (normpath p) = true) ->
      call_tool c s = run_volatility (cmd_args_of c) VOLATILITY_DIR s).
Proof.
  intros Hc. destruct (plain_tool_cases c s Hc) as [E | (p & Hp & Hf & E)].
  - split; [|intros _; exact E].
    destruct (run_volatility_returns (cmd_args_of c) VOLATILITY_DIR s) as (text & w & Er).
    rewrite E, Er. eauto.
  - split; [rewrite E; eauto|].
    intros Himg. rewrite (Himg p Hp) in Hf. discriminate Hf.
Qed.

(** X2. Through a plain tool whose image is there, a child that could be
    spawned and waited for decides the answer alone: the tool returns the
    decoded standard output when the exit code is zero and the error text
    with the decoded standard error otherwise, and records this one spawn.
    In particular well-formed UTF-8 output reaches the caller as the text it
    encodes, unchanged. *)
Theorem tool_end_to_end (c : ToolCall) (s : State)
    (child : process) (w1 w2 : world) (done : Completed) :
  plain_tool c = true ->
  (forall p, image_path c = Some p -> isfile (now s) (normpath p) = true) ->
  spawn (command_of (cmd_args_of c)) VOLATILITY_DIR (now s) = (Ok child, w1) ->
  wait child w1 = (Ok done, w2) ->
  call_tool c s
  = (Ok (if (returncode done =? 0)%Z then decode_replace (stdout done)
         else lit "Error running Volatility command: " ++ decode_replace (stderr done)),
     {| now := w2;
        calls := calls s ++ [Spawn (command_of (cmd_args_of c)) VOLATILITY_DIR] |})
  /\ (forall text,
        returncode done = 0%Z -> forallb scalar text = true -> stdout done = encode text ->
        returned (call_tool c) s = Ok text).
Proof.
  intros Hc Himg Hspawn Hwait.
  assert (E : call_tool c s
              = (Ok (text_of done),
                 {| now := w2;
                    calls := calls s ++ [Spawn (command_of (cmd_args_of c)) VOLATILITY_DIR] |})).
  { destruct (plain_tool_cases c s Hc) as [E | (p & Hp & Hf & _)].
    - rewrite E, run_volatility_cases. cbv zeta. now rewrite Hspawn, Hwait.
    - rewrite (Himg p Hp) in Hf. discriminate Hf. }
  split.
  - rewrite E. unfold text_of. now destruct (returncode done =? 0)%Z.
  - intros text Hrc Ht Hout. unfold returned. rewrite E. simpl.
    unfold text_of. rewrite Hrc, Hout. simpl. now rewrite decode_replace_encode.
Qed.

(** X3. The two resources never raise, and each spawns exactly one process:
    [get_plugin_help] on the plugin name, forwarded as it is, followed by
    [--help], and [get_volatility_plugins] on [-h]; neither passes a memory
    image. *)
Theorem resources_never_raise (plugin : pystr) (s : State) :
  (exists text w,
      get_plugin_help plugin s
      = (Ok text,
         {| now := w;
            calls := calls s ++ [Spawn [VOLATILITY_PYTHON; VOLATILITY_SCRIPT; plugin; lit "--help"]
                                   VOLATILITY_DIR] |}))
  /\ (exists text w,
        get_volatility_plugins s
        = (Ok text,
           {| now := w;
              calls := calls s ++ [Spawn [VOLATILITY_PYTHON; VOLATILITY_SCRIPT; lit "-h"]
                                     VOLATILITY_DIR] |})).
Proof.
  split.
  - exact (run_volatility_returns [plugin; lit "--help"] VOLATILITY_DIR s).
  - destruct (run_volatility_returns [lit "-h"] VOLATILITY_DIR s) as (text & w & E).
    exists (plugins_of_help text), w.
    unfold get_volatility_plugins, bind, ret. now rewrite E.
Qed.

End ToolsEndToEnd.

Section MalfindMore.
Context {H : Host}.

(** The summary raises only what the listing raises. *)
Lemma malfind_summary_raises (result : pystr) (dump_dir : option pystr) (s : State)
    (e : PyExc) :
  fst (malfind_summary result dump_dir s) = Raise e ->
  exists d, dump_dir = Some d /\ truthy d = true
            /\ path_exists (now s) d = true /\ listdir d (now s) = Raise e.
Proof.
  unfold malfind_summary, bind, os_path_exists, os_listdir, ret.
  destruct dump_dir as [d|]; [|discriminate].
  destruct (truthy d) eqn:Ht; [|discriminate].
  destruct (path_exists (now s) d) eqn:He; [|discriminate].
  destruct (listdir d (now s)) as [[|f fs]|e'] eqn:El; simpl; try discriminate.
  intros E. injection E as ->. now exists d.
Qed.

(** X4. [run_malfind] raises only what [os.listdir] raises on the dump
    directory after the invocation: when it raises [e], a non-empty dump
    directory was given, whose normalized path exists in the world the call
    leaves behind, and listing it there raises [e].  Without a dump directory
    it never raises. *)
Theorem run_malfind_raises_only_from_listdir (p : pystr) (dump_dir : option pystr)
    (s : State) (e : PyExc) :
  returned (run_malfind p dump_dir) s = Raise e ->
  exists d,
    dump_dir = Some d /\ truthy d = true
    /\ path_exists (now (snd (run_malfind p dump_dir s))) (normpath d) = true
    /\ listdir (normpath d) (now (snd (run_malfind p dump_dir s))) = Raise e.
Proof.
  unfold returned.
  destruct (isfile (now s) (normpath p)) eqn:Hf.
  2:{ rewrite (call_tool_missing_image (RunMalfind p dump_dir) p s eq_refl Hf : run_malfind p dump_dir s = _).
      discriminate. }
  rewrite (run_malfind_found p dump_dir s Hf).
  assert (Hrun : forall cmd_args dd s1,
             fst (match run_volatility cmd_args VOLATILITY_DIR s1 with
                  | (Ok result, s2) => malfind_summary result dd s2
                  | (Raise e0, s2) => (Raise e0, s2)
                  end) = Raise e ->
             exists d, dd = Some d /\ truthy d = true
               /\ path_exists (now (snd (match run_volatility cmd_args VOLATILITY_DIR s1 with
                                         | (Ok result, s2) => malfind_summary result dd s2
                                         | (Raise e0, s2) => (Raise e0, s2)
                                         end))) d = true
               /\ listdir d (now (snd (match run_volatility cmd_args VOLATILITY_DIR s1 with
                                       | (Ok result, s2) => malfind_summary result dd s2
                                       | (Raise e0, s2) => (Raise e0, s2)
                                       end))) = Raise e).
  { intros cmd_args dd s1.
    destruct (run_volatility_returns cmd_args VOLATILITY_DIR s1) as (text & w & ->).
    rewrite malfind_summary_state. apply malfind_summary_raises. }
  destruct dump_dir as [d|].
  - destruct (truthy d) eqn:Ht.
    + rewrite (malfind_dump_dir_given _ d s Ht). cbv zeta.
      destruct (isdir (now s) (normpath d)).
      * intros E. destruct (Hrun _ _ _ E) as (d' & Ed & _ & He & Hl).
        injection Ed as <-. now exists d.
      * destruct (makedirs (normpath d) (now s)) as [[u|e'] w1]; [|discriminate].
        intros E. destruct (Hrun _ _ _ E) as (d' & Ed & _ & He & Hl).
        injection Ed as <-. now exists d.
    + rewrite (malfind_dump_dir_absent _ (Some d) s) by (simpl; exact Ht).
      intros E. destruct (Hrun _ _ _ E) as (d' & Ed & Ht' & _).
      injection Ed as <-. rewrite Ht in Ht'. discriminate Ht'.
  - rewrite (malfind_dump_dir_absent _ None s eq_refl).
    intros E. destruct (Hrun _ _ _ E) as (d' & Ed & _). discriminate Ed.
Qed.

(** X5. The count of [run_malfind] does not depend on how the invocation
    went: with a dump directory that is there beforehand, whatever text
    [run_volatility] returns (the output, the error text of a failed run, or
    the text of an exception), the line with the count is appended to it as
    soon as the directory exists afterwards and has entries, and every direct
    entry is counted, whether the run put it there or not. *)
Theorem malfind_counts_after_any_outcome (p d : pystr) (s s1 : State)
    (text : pystr) (files : list pystr) :
  isfile (now s) (normpath p) = true ->
  truthy d = true ->
  isdir (now s) (normpath d) = true ->
  run_volatility
    [lit "-f"; normpath p; lit "windows.malfind.Malfind"; lit "--dump-dir"; normpath d]
    VOLATILITY_DIR s = (Ok text, s1) ->
  path_exists (now s1) (normpath d) = true ->
  listdir (normpath d) (now s1) = Ok files ->
  files <> [] ->
  run_malfind p (Some d) s
  = (Ok (text ++ [10; 10] ++ lit "Dumped " ++ str_of_nat (List.length files)
           ++ lit " suspicious memory sections to " ++ normpath d), s1).
Proof.
  intros Hf Ht Hd Hrun He Hl Hfiles.
  rewrite (run_malfind_found p (Some d) s Hf), (malfind_dump_dir_given _ d s Ht).
  cbv zeta. rewrite Hd.
  change ([lit "-f"; normpath p; lit "windows.malfind.Malfind"]
            ++ [lit "--dump-dir"; normpath d])
    with [lit "-f"; normpath p; lit "windows.malfind.Malfind"; lit "--dump-dir"; normpath d].
  rewrite Hrun. apply malfind_summary_counts; auto. apply normpath_truthy.
Qed.

(** X6. An empty dump directory is no dump directory: [run_malfind] with
    [''] does what it does with [None], and, the image being there, that is
    the bare invocation of the plugin: no directory is created or listed,
    no [--dump-dir] is passed, nothing is appended. *)
Theorem malfind_without_dump_dir (p : pystr) (s : State) :
  run_malfind p (Some []) s = run_malfind p None s
  /\ (isfile (now s) (normpath p) = true ->
      run_malfind p None s
      = run_volatility [lit "-f"; normpath p; lit "windows.malfind.Malfind"]
          VOLATILITY_DIR s).
Proof.
  assert (E : forall dd, truthy_opt dd = false ->
            isfile (now s) (normpath p) = true ->
            run_malfind p dd s
            = run_volatility [lit "-f"; normpath p; lit "windows.malfind.Malfind"]
                VOLATILITY_DIR s).
  { intros dd Hdd Hf.
    rewrite (run_malfind_found p dd s Hf), (malfind_dump_dir_absent _ dd s Hdd).
    destruct (run_volatility_returns [lit "-f"; normpath p; lit "windows.malfind.Malfind"]
                VOLATILITY_DIR s) as (text & w & ->).
    destruct dd as [[|c d]|]; try discriminate Hdd; reflexivity. }
  split.
  - destruct (isfile (now s) (normpath p)) eqn:Hf.
    + now rewrite !E.
    + rewrite (call_tool_missing_image (RunMalfind p (Some [])) p s eq_refl Hf
               : run_malfind p (Some []) s = _).
      now rewrite (call_tool_missing_image (RunMalfind p None) p s eq_refl Hf
                   : run_malfind p None s = _).
  - now apply E.
Qed.

(** X7. Only [run_malfind] ever creates a directory, and only the dump
    directory: a tool call that records [os.makedirs] on [dir] is a call of
    [run_malfind] with a non-empty dump directory whose normalized path is
    [dir], the image being there and [dir] being no directory beforehand. *)
Theorem only_malfind_creates_directories (c : ToolCall) (s : State) (dir : pystr) :
  In (Makedirs dir) (new_calls (call_tool c) s) ->
  exists p d,
    c = RunMalfind p (Some d) /\ truthy d = true /\ dir = normpath d
    /\ isfile (now s) (normpath p) = true /\ isdir (now s) dir = false.
Proof.
  assert (Hone : forall (argv : list pystr) (new : list Call),
             new = [Spawn argv VOLATILITY_DIR] \/ new = [] -> ~ In (Makedirs dir) new).
  { intros argv new [-> | ->] Hin; [|contradiction]. destruct Hin as [E|[]]. discriminate E. }
  assert (Himg : forall p, image_path c = Some p -> (forall q d, c <> RunMalfind q d) ->
             ~ In (Makedirs dir) (new_calls (call_tool c) s)).
  { intros p Hp Hc. rewrite (call_tool_with_image c p Hp Hc), with_image_calls.
    apply (Hone (command_of (cmd_args_of c))).
    destruct (isfile (now s) (normpath p)); auto. }
  destruct c;
    try (intros Hin; now destruct (Himg memory_dump_path eq_refl ltac:(discriminate) Hin)).
  - simpl. unfold list_available_plugins. rewrite run_volatility_calls.
    intros [E|[]]. discriminate E.
  - change (call_tool (RunMalfind memory_dump_path dump_dir))
      with (run_malfind memory_dump_path dump_dir).
    destruct (isfile (now s) (normpath memory_dump_path)) eqn:Hf.
    + rewrite (run_malfind_calls memory_dump_path dump_dir s Hf). cbv zeta.
      destruct dump_dir as [d|]; [|intros [E|[]]; discriminate E].
      destruct (truthy d) eqn:Ht; [|intros [E|[]]; discriminate E].
      destruct (isdir (now s) (normpath d)) eqn:Hd; [intros [E|[]]; discriminate E|].
      assert (Hfirst : forall rest, ~ In (Makedirs dir) rest ->
                 In (Makedirs dir) (Makedirs (normpath d) :: rest) ->
                 exists p d0, RunMalfind memory_dump_path (Some d) = RunMalfind p (Some d0)
                   /\ truthy d0 = true /\ dir = normpath d0
                   /\ isfile (now s) (normpath p) = true /\ isdir (now s) dir = false).
      { intros rest Hrest [E|Hin]; [|contradiction].
        injection E as <-. exists memory_dump_path, d. auto. }
      destruct (makedirs (normpath d) (now s)) as [[u|e] w1]; apply Hfirst.
      * intros [E|[]]. discriminate E.
      * intros [].
    + rewrite (new_calls_unchanged _ (run_malfind memory_dump_path dump_dir) s _
                 (call_tool_missing_image (RunMalfind memory_dump_path dump_dir)
                    memory_dump_path s eq_refl Hf)).
      intros [].
  - change (call_tool (ListMemoryDumps search_dir)) with (list_memory_dumps search_dir).
    rewrite (new_calls_same_state _ _ s (list_memory_dumps_state search_dir s)).
    intros [].
Qed.

End MalfindMore.

Section Tokens.
Context {H : Host}.

Lemma split_ws_concat (s : pystr) : List.concat (split_ws s) = filter is_solid s.
Proof.
  unfold is_solid. induction s as [|c s IH]; [reflexivity|].
  cbn [split_ws filter]. destruct (isspace c) eqn:Ec; cbn [negb]; [exact IH|].
  destruct s as [|d s']; [reflexivity|].
  destruct (isspace d) eqn:Ed.
  - cbn [List.concat app]. now rewrite IH.
  - destruct (split_ws (d :: s')) as [|tok toks].
    + cbn [List.concat app] in *. now rewrite <- IH.
    + cbn [List.concat app] in *. now rewrite <- IH.
Qed.

Lemma split_ws_solid (s : pystr) :
  Forall (fun tok => tok <> [] /\ forallb is_solid tok = true) (split_ws s).
Proof.
  unfold is_solid. induction s as [|c s IH]; [constructor|].
  cbn [split_ws]. destruct (isspace c) eqn:Ec; [exact IH|].
  assert (Hc : [c] <> [] /\ forallb (fun x => negb (isspace x)) [c] = true).
  { split; [discriminate|]. simpl. now rewrite Ec. }
  destruct s as [|d s']; [now repeat constructor|].
  destruct (isspace d) eqn:Ed.
  - constructor; [exact Hc | exact IH].
  - destruct (split_ws (d :: s')) as [|tok toks]; [now repeat constructor|].
    inversion IH as [|? ? [_ Htok] Htoks]; subst.
    constructor; [|exact Htoks]. split; [discriminate|].
    simpl. now rewrite Ec, Htok.
Qed.

(** X8. The additional arguments of [run_custom_plugin] reach the child cut
    at white space: after the plugin name the vector holds the tokens of
    [additional_args], none of them empty and none with white space in it,
    which put together are [additional_args] with its white space removed.
    So white space alone adds no argument, and no argument with a blank in
    it can be passed this way. *)
Theorem custom_plugin_tokens (p plugin_name additional_args : pystr) (s : State) :
  isfile (now s) (normpath p) = true ->
  new_calls (run_custom_plugin p plugin_name additional_args) s
  = [Spawn ([VOLATILITY_PYTHON; VOLATILITY_SCRIPT; lit "-f"; normpath p; plugin_name]
              ++ split_ws additional_args) VOLATILITY_DIR]
  /\ Forall (fun tok => tok <> [] /\ forallb is_solid tok = true) (split_ws additional_args)
  /\ List.concat (split_ws additional_args) = filter is_solid additional_args
  /\ (forallb isspace additional_args = true -> split_ws additional_args = []).
Proof.
  intros Hf. split; [|split; [apply split_ws_solid | split; [apply split_ws_concat|]]].
  - change (run_custom_plugin p plugin_name additional_args)
      with (with_image p (cmd_args_of (RunCustomPlugin p plugin_name additional_args))).
    rewrite with_image_calls, Hf. cbn [cmd_args_of].
    destruct additional_args; reflexivity.
  - intros Hsp. pose proof (split_ws_concat additional_args) as Hc.
    pose proof (split_ws_solid additional_args) as Hs.
    assert (Hnone : filter is_solid additional_args = []).
    { clear Hc Hs. unfold is_solid.
      induction additional_args as [|c a IH]; [reflexivity|].
      simpl in Hsp. apply andb_true_iff in Hsp as [Hc Ha].
      simpl. rewrite Hc. simpl. now apply IH. }
    rewrite Hnone in Hc.
    destruct (split_ws additional_args) as [|tok toks]; [reflexivity|].
    inversion Hs as [|? ? [Hne _] _]; subst.
    destruct tok; [contradiction|discriminate Hc].
Qed.

End Tokens.

Section PluginsMore.
Context {H : Host}.

Lemma lstrip_solid_head (c : codepoint) (s : pystr) :
  isspace c = false -> lstrip (c :: s) = c :: s.
Proof.
  intros Hc. simpl. now rewrite Hc.
Qed.

Lemma lstrip_head (s : pystr) :
  lstrip s = [] \/ exists c t, lstrip s = c :: t /\ isspace c = false.
Proof.
  induction s as [|c s IH]; [now left|].
  simpl. destruct (isspace c) eqn:Ec; [exact IH|].
  right. now exists c, s.
Qed.

Lemma lstrip_idempotent (s : pystr) : lstrip (lstrip s) = lstrip s.
Proof.
  destruct (lstrip_head s) as [-> | (c & t & -> & Hc)]; [reflexivity|].
  now apply lstrip_solid_head.
Qed.

Lemma lstrip_snoc_solid (a : pystr) (c : codepoint) :
  isspace c = false -> lstrip (a ++ [c]) = lstrip a ++ [c].
Proof.
  intros Hc. induction a as [|x a IH]; simpl.
  - now rewrite Hc.
  - destruct (isspace x); [exact IH | reflexivity].
Qed.

Lemma rstrip_solid_head (c : codepoint) (s : pystr) :
  isspace c = false -> rstrip (c :: s) = c :: rstrip s.
Proof.
  intros Hc. unfold rstrip. simpl.
  now rewrite (lstrip_snoc_solid _ c Hc), rev_app_distr.
Qed.

Lemma rstrip_idempotent (s : pystr) : rstrip (rstrip s) = rstrip s.
Proof.
  unfold rstrip. now rewrite rev_involutive, lstrip_idempotent.
Qed.

(** Trimming twice is trimming once. *)
Lemma strip_idempotent (s : pystr) : strip (strip s) = strip s.
Proof.
  unfold strip.
  destruct (lstrip_head s) as [-> | (c & t & -> & Hc)]; [reflexivity|].
  rewrite (rstrip_solid_head c t Hc), (lstrip_solid_head c _ Hc).
  rewrite <- (rstrip_solid_head c t Hc). apply rstrip_idempotent.
Qed.

Lemma captured_entries (lines : list pystr) (entry : pystr) :
  In entry (captured lines) ->
  exists line, entry = strip line /\ is_blank line = false /\ is_heading line = false.
Proof.
  unfold captured. intros Hin.
  apply in_map_iff in Hin as (line & <- & Hline).
  apply filter_In in Hline as [Hline Hh].
  exists line. split; [reflexivity|]. split; [|now destruct (is_heading line)].
  clear Hh. induction (after_heading lines) as [|l rest IH]; [contradiction|].
  simpl in Hline. destruct (is_blank l) eqn:Eb; [contradiction|].
  destruct Hline as [-> | Hline]; [exact Eb | now apply IH].
Qed.

(** X9. A help text without a heading line yields the empty array: when no
    line of what [run_volatility] returned for [-h] has the trimmed content
    [Plugins] (as when the program failed and the text is an error message),
    [get_volatility_plugins] returns the text [[]]. *)
Theorem no_heading_no_plugins (s s' : State) (output : pystr) :
  run_volatility [lit "-h"] VOLATILITY_DIR s = (Ok output, s') ->
  (forall line, In line (split_on 10 output) -> strip line <> lit "Plugins") ->
  get_volatility_plugins s = (Ok (lit "[]"), s').
Proof.
  intros Hrun Hno. unfold get_volatility_plugins, bind, ret. rewrite Hrun.
  unfold plugins_of_help. rewrite scan_plugins_waiting. unfold captured.
  assert (E : after_heading (split_on 10 output) = []).
  { induction (split_on 10 output) as [|line rest IH]; [reflexivity|].
    simpl. destruct (is_heading line) eqn:Eh.
    - apply str_eqb_eq in Eh. now destruct (Hno line (or_introl eq_refl)).
    - apply IH. intros l Hl. apply Hno. now right. }
  now rewrite E.
Qed.

(** X10. Every name [get_volatility_plugins] captures from a help text is
    trimmed (it has no white space at either end), is not empty and is not
    the heading [Plugins] itself. *)
Theorem captured_names_are_trimmed (output entry : pystr) :
  In entry (scan_plugins (split_on 10 output) false []) ->
  strip entry = entry /\ entry <> [] /\ entry <> lit "Plugins".
Proof.
  rewrite scan_plugins_waiting. simpl. intros Hin.
  destruct (captured_entries _ _ Hin) as (line & -> & Hb & Hh).
  split; [apply strip_idempotent|]. split.
  - intros E. unfold is_blank in Hb. rewrite E in Hb. discriminate Hb.
  - intros E. unfold is_heading in Hh. rewrite E in Hh. discriminate Hh.
Qed.

End PluginsMore.

Section JsonMore.
Context {H : Host}.

Local Ltac plain := unfold is_plain; repeat (apply andb_true_iff || apply orb_true_iff).

Lemma hex_digit_plain (d : N) : d < 16 -> is_plain (hex_digit d) = true.
Proof.
  intros Hd. unfold is_plain, hex_digit. apply orb_true_iff. right.
  destruct (N.ltb_spec d 10); apply andb_true_iff; split; apply N.leb_le; lia.
Qed.

Lemma u_escape_plain (c : N) : forallb is_plain (u_escape c) = true.
Proof.
  unfold u_escape. cbn [forallb].
  rewrite !hex_digit_plain by (apply N.mod_lt; discriminate).
  reflexivity.
Qed.

Lemma escape_cp_plain (c : codepoint) : forallb is_plain (escape_cp c) = true.
Proof.
  unfold escape_cp.
  repeat match goal with
         | |- context [if ?b then _ else _] => destruct b eqn:?; [try reflexivity|]
         end;
    rewrite ?forallb_app, ?u_escape_plain; try reflexivity.
  cbn [forallb]. unfold is_plain.
  match goal with E : (_ && _) = true |- _ => rewrite E end.
  now rewrite orb_true_r.
Qed.

Lemma dumps_str_plain (s : pystr) : forallb is_plain (dumps_str s) = true.
Proof.
  unfold dumps_str. rewrite !forallb_app. cbn [forallb].
  replace (forallb is_plain (flat_map escape_cp s)) with true; [reflexivity|].
  symmetry. induction s as [|c s IH]; [reflexivity|].
  simpl. now rewrite forallb_app, escape_cp_plain, IH.
Qed.

Lemma join_plain (sep : pystr) (parts : list pystr) :
  forallb is_plain sep = true ->
  (forall part, In part parts -> forallb is_plain part = true) ->
  forallb is_plain (join sep parts) = true.
Proof.
  intros Hsep. induction parts as [|part parts IH]; intros Hparts; [reflexivity|].
  cbn [join]. destruct parts as [|part' parts'].
  - apply Hparts. now left.
  - rewrite !forallb_app, Hsep, (Hparts part (or_introl eq_refl)). simpl.
    apply IH. intros q Hq. apply Hparts. now right.
Qed.

Lemma dumps_list_plain (items : list pystr) :
  forallb is_plain (dumps_list_indent2 items) = true.
Proof.
  unfold dumps_list_indent2. destruct items as [|item items]; [reflexivity|].
  rewrite !forallb_app. rewrite join_plain; [reflexivity | reflexivity |].
  intros part Hin. apply in_map_iff in Hin as (x & <- & _). apply dumps_str_plain.
Qed.

(** X11. Whatever the program prints, the text of the plugin resource is
    plain ASCII: [get_volatility_plugins] always returns a text, every
    character of which is a line feed or a printable ASCII character
    (anything else in a plugin name is escaped by [json.dumps]). *)
Theorem plugins_text_is_plain_ascii (s : State) :
  exists text s',
    get_volatility_plugins s = (Ok text, s') /\ forallb is_plain text = true.
Proof.
  destruct (run_volatility_returns [lit "-h"] VOLATILITY_DIR s) as (output & w & E).
  do 2 eexists. unfold get_volatility_plugins, bind, ret. rewrite E.
  split; [reflexivity|]. apply dumps_list_plain.
Qed.

End JsonMore.

Section ScannerMore.
Context {H : Host}.

(** X12. [list_memory_dumps] only reads: whatever directory it is given and
    whether it returns or raises, it leaves the world as it was and records
    no call, so it never spawns the program and never creates a directory. *)
Theorem list_memory_dumps_only_reads (search_dir : option pystr) (s : State) :
  exists outcome, list_memory_dumps search_dir s = (outcome, s).
Proof.
  exists (fst (list_memory_dumps search_dir s)).
  rewrite <- (list_memory_dumps_state search_dir s) at 3. apply surjective_pairing.
Qed.






(** X14. Small files are reported with size zero: a file of at most 5242
    bytes that [list_memory_dumps] reports gets the line
    ["<path> (Size: 0.00 MB)"], while from 5243 bytes on the printed value is
    at least one hundredth. *)
Theorem small_files_print_zero (root file : pystr) (memory_files : list pystr)
    (s : State) (n : N) :
  has_memory_extension file = true ->
  getsize (path_join root file) (now s) = Ok n ->
  (n <= 5242 ->
   scan_file root file memory_files s
   = (Ok (memory_files ++ [path_join root file ++ lit " (Size: 0.00 MB)"]), s))
  /\ (5243 <= n -> n < 2 ^ 53 -> 1 <= hundredths (truediv n (1024 * 1024))).
Proof.
  intros He Hg.
  assert (Hh : n < 2 ^ 53 ->
               hundredths (truediv n (1024 * 1024)) = round_half_even (n * 100) 1048576).
  { intros Hn. unfold hundredths, truediv, float_of_int. cbn [mant exp2].
    apply N.ltb_lt in Hn. now rewrite Hn. }
  split.
  - intros Hn. rewrite (scan_file_reported root file memory_files s n He Hg).
    do 3 f_equal. unfold report_line, format_2f.
    change (truediv n 1048576) with (truediv n (1024 * 1024)).
    rewrite Hh by (change (2 ^ 53) with 9007199254740992; lia).
    assert (E : round_half_even (n * 100) 1048576 = 0).
    { unfold round_half_even.
      rewrite (N.div_small (n * 100) 1048576) by lia.
      rewrite (N.mod_small (n * 100) 1048576) by lia.
      destruct (N.ltb_spec (2 * (n * 100)) 1048576); [reflexivity|lia]. }
    rewrite E. reflexivity.
  - intros Hlo Hhi. rewrite (Hh Hhi).
    pose proof (round_half_even_nearest (n * 100) 1048576 ltac:(lia)) as [_ H2].
    cbv zeta in H2. lia.
Qed.

End ScannerMore.

Section DecoderMore.
Context {H : Host}.

Lemma in_tail_range_bounds (r : tail_range) (b : N) :
  in_tail_range r b = true ->
  128 + fst (tail_bounds r) <= b <= 128 + snd (tail_bounds r).
Proof.
  destruct r; simpl; intros [H1 H2]%andb_true_iff;
    apply N.leb_le in H1; apply N.leb_le in H2; lia.
Qed.

Lemma scalar_below (c : codepoint) : c < 55296 -> scalar c = true.
Proof.
  intros Hc. unfold scalar. apply N.ltb_lt in Hc. now rewrite Hc.
Qed.

Lemma scalar_above (c : codepoint) : 57344 <= c -> c < 1114112 -> scalar c = true.
Proof.
  intros H1 H2. unfold scalar. apply N.leb_le in H1. apply N.ltb_lt in H2.
  rewrite H1, H2. apply orb_true_r.
Qed.

(** What a byte opens at the start of a character is sound. *)
Lemma lead_sound (b : N) :
  Forall (fun c => scalar c = true) (fst (lead b)) /\ sound_state (snd (lead b)).
Proof.
  unfold lead.
  destruct (N.ltb_spec b 128);
    [split; [repeat constructor; apply scalar_below; lia | exact I]|].
  destruct (N.ltb_spec b 194); [split; [repeat constructor | exact I]|].
  destruct (N.ltb_spec b 224).
  { split; [constructor|]. cbn -[N.mul N.add N.pow N.of_nat].
    change (64 ^ N.of_nat 0) with 1. left. lia. }
  destruct (N.eqb_spec b 224).
  { split; [constructor|]. cbn -[N.mul N.add N.pow N.of_nat].
    change (64 ^ N.of_nat 1) with 64. left. lia. }
  destruct (N.eqb_spec b 237).
  { split; [constructor|]. cbn -[N.mul N.add N.pow N.of_nat].
    change (64 ^ N.of_nat 1) with 64. left. lia. }
  destruct (N.ltb_spec b 240).
  { split; [constructor|]. cbn -[N.mul N.add N.pow N.of_nat].
    change (64 ^ N.of_nat 1) with 64.
    destruct (N.ltb_spec b 237); [left; lia | right; lia]. }
  destruct (N.eqb_spec b 240).
  { split; [constructor|]. cbn -[N.mul N.add N.pow N.of_nat].
    change (64 ^ N.of_nat 2) with 4096. right. lia. }
  destruct (N.ltb_spec b 244).
  { split; [constructor|]. cbn -[N.mul N.add N.pow N.of_nat].
    change (64 ^ N.of_nat 2) with 4096. right. lia. }
  destruct (N.eqb_spec b 244).
  { split; [constructor|]. cbn -[N.mul N.add N.pow N.of_nat].
    change (64 ^ N.of_nat 2) with 4096. right. lia. }
  split; [repeat constructor | exact I].
Qed.

(** From a sound state the decoder puts out encodable code points only. *)
Lemma decode_from_sound (bs : list N) :
  forall st, sound_state st -> Forall (fun c => scalar c = true) (decode_from st bs).
Proof.
  induction bs as [|b rest IH]; intros st Hst.
  - destruct st; repeat constructor.
  - cbn [decode_from]. pose proof (lead_sound b) as [Hout Hnext].
    destruct st as [|more acc r].
    + destruct (lead b) as [out st']. apply Forall_app. split; [exact Hout | now apply IH].
    + destruct (in_tail_range r b) eqn:Er.
      * apply in_tail_range_bounds in Er. cbn -[N.mul N.add N.pow N.of_nat] in Hst.
        destruct more as [|more].
        -- change (64 ^ N.of_nat 0) with 1 in Hst.
           constructor; [|now apply IH].
           destruct Hst as [Hs | [H1 H2]]; [apply scalar_below | apply scalar_above]; lia.
        -- apply IH. cbn -[N.mul N.add N.pow N.of_nat].
           rewrite Nat2N.inj_succ, N.pow_succ_r' in Hst.
           assert (Hp : 1 <= 64 ^ N.of_nat more).
           { pose proof (N.pow_nonzero 64 (N.of_nat more) ltac:(discriminate)). lia. }
           generalize dependent (64 ^ N.of_nat more). intros P Hst HP.
           destruct Hst as [Hs | [H1 H2]]; [left | right]; nia.
      * constructor; [reflexivity|].
        destruct (lead b) as [out st']. apply Forall_app. split; [exact Hout | now apply IH].
Qed.

(** X15. What [run_volatility] makes of a child that terminated is always
    well-formed text: whatever bytes the child wrote, every character of the
    returned text is an encodable code point (no surrogate, at most
    U+10FFFF), so the text can be encoded again. *)
Theorem returned_text_is_encodable (cmd_args : list pystr) (dir : pystr) (s : State)
    (child : process) (w1 w2 : world) (done : Completed) :
  spawn (command_of cmd_args) dir (now s) = (Ok child, w1) ->
  wait child w1 = (Ok done, w2) ->
  exists text,
    returned (run_volatility cmd_args dir) s = Ok text
    /\ forallb scalar text = true.
Proof.
  intros Hspawn Hwait. exists (text_of done). split.
  - unfold returned. rewrite run_volatility_cases. cbv zeta. now rewrite Hspawn, Hwait.
  - assert (Hd : forall data, forallb scalar (decode_replace data) = true).
    { intros data. apply forallb_forall. apply Forall_forall.
      apply decode_from_sound. exact I. }
    unfold text_of. destruct (negb _); [|apply Hd].
    rewrite forallb_app, Hd. reflexivity.
Qed.

End DecoderMore.

(* ===================================================================== *)
(** * The further properties on the concrete host *)
(* ===================================================================== *)

Section ConcreteMore.
Import Toy.

(** X1 at [run_memmap] with a program that cannot be started. *)
Lemma plain_tools_never_raise_witness :
  exists text s',
    call_tool (RunMemmap (lit "mem.raw") 4%Z) (boot (machine missing true)) = (Ok text, s').
Proof.
  exact (proj1 (plain_tools_never_raise (RunMemmap (lit "mem.raw") 4%Z)
                  (boot (machine missing true)) eq_refl)).
Defined.

(** X2 at the process list of an image that is there. *)
Lemma tool_end_to_end_witness :
  returned (call_tool (RunPslist (lit "mem.raw"))) (boot (machine (echoes "PID 4") true))
  = Ok (lit "PID 4").
Proof.
  refine (proj2 (tool_end_to_end (RunPslist (lit "mem.raw"))
                   (boot (machine (echoes "PID 4") true))
                   {| stdout := ascii_bytes "PID 4"; stderr := []; returncode := 0 |}
                   (with_nodes (machine (echoes "PID 4") true)
                      (tool_writes (machine (echoes "PID 4") true)
                         ++ nodes (machine (echoes "PID 4") true)))
                   (with_nodes (machine (echoes "PID 4") true)
                      (tool_writes (machine (echoes "PID 4") true)
                         ++ nodes (machine (echoes "PID 4") true)))
                   {| stdout := ascii_bytes "PID 4"; stderr := []; returncode := 0 |}
                   eq_refl _ eq_refl eq_refl)
            (lit "PID 4") eq_refl eq_refl eq_refl).
  intros p E. injection E as <-. reflexivity.
Defined.

(** X4 at a program that puts a file in the place of the dump directory. *)
Lemma run_malfind_raises_only_from_listdir_witness :
  exists d,
    Some (lit "out") = Some d /\ truthy d = true
    /\ path_exists
         (now (snd (run_malfind (lit "mem.raw") (Some (lit "out")) (boot clobbering_machine))))
         (normpath d) = true
    /\ listdir (normpath d)
         (now (snd (run_malfind (lit "mem.raw") (Some (lit "out")) (boot clobbering_machine))))
       = Raise {| exc_str := lit "[Errno 20] Not a directory" |}.
Proof.
  apply (run_malfind_raises_only_from_listdir (lit "mem.raw") (Some (lit "out"))
           (boot clobbering_machine)).
  vm_compute. reflexivity.
Defined.

(** X5 at a failed run over a directory that had three entries before. *)
Lemma malfind_counts_after_any_outcome_witness :
  returned (run_malfind (lit "mem.raw") (Some (lit "dumps")))
    (boot (machine (fails_with "boom") true))
  = Ok (lit "Error running Volatility command: boom" ++ [10; 10]
          ++ lit "Dumped 3 suspicious memory sections to dumps").
Proof.
  unfold returned.
  rewrite (malfind_counts_after_any_outcome (lit "mem.raw") (lit "dumps")
             (boot (machine (fails_with "boom") true))
             (snd (run_volatility
                     [lit "-f"; lit "mem.raw"; lit "windows.malfind.Malfind";
                      lit "--dump-dir"; lit "dumps"]
                     VOLATILITY_DIR (boot (machine (fails_with "boom") true))))
             (lit "Error running Volatility command: boom")
             [lit "a.dmp"; lit "b.txt"; lit "c.RAW"]
             eq_refl eq_refl eq_refl eq_refl eq_refl eq_refl ltac:(discriminate)).
  reflexivity.
Defined.

(** X7 at a dump directory that has to be created. *)
Lemma only_malfind_creates_directories_witness :
  exists p d,
    RunMalfind (lit "mem.raw") (Some (lit "out")) = RunMalfind p (Some d)
    /\ truthy d = true /\ lit "out" = normpath d
    /\ isfile (now (boot (machine (echoes "hits") true))) (normpath p) = true
    /\ isdir (now (boot (machine (echoes "hits") true))) (lit "out") = false.
Proof.
  apply (only_malfind_creates_directories (RunMalfind (lit "mem.raw") (Some (lit "out")))
           (boot (machine (echoes "hits") true)) (lit "out")).
  vm_compute. left. reflexivity.
Defined.

(** X8 at additional arguments with doubled blanks. *)
Lemma custom_plugin_tokens_witness :
  new_calls (run_custom_plugin (lit "mem.raw") (lit "windows.svcscan.SvcScan")
               (lit "  --pid 4   -r  json "))
    (boot (machine (echoes "services") true))
  = [Spawn [lit "python"; VOLATILITY_SCRIPT; lit "-f"; lit "mem.raw";
            lit "windows.svcscan.SvcScan"; lit "--pid"; lit "4"; lit "-r"; lit "json"]
       VOLATILITY_DIR].
Proof.
  exact (proj1 (custom_plugin_tokens (lit "mem.raw") (lit "windows.svcscan.SvcScan")
                  (lit "  --pid 4   -r  json ")
                  (boot (machine (echoes "services") true)) eq_refl)).
Defined.

(** X9 at a program that fails: the error text has no heading line. *)
Lemma no_heading_no_plugins_witness :
  returned get_volatility_plugins (boot (machine (fails_with "boom") true)) = Ok (lit "[]").
Proof.
  unfold returned.
  rewrite (no_heading_no_plugins (boot (machine (fails_with "boom") true))
             (snd (run_volatility [lit "-h"] VOLATILITY_DIR
                     (boot (machine (fails_with "boom") true))))
             (lit "Error running Volatility command: boom") eq_refl).
  - reflexivity.
  - intros line Hin. vm_compute in Hin. destruct Hin as [<- | []].
    vm_compute. discriminate.
Defined.

(** X10 at a help text with one indented plugin name. *)
Lemma captured_names_are_trimmed_witness :
  strip (lit "windows.pslist") = lit "windows.pslist"
  /\ lit "windows.pslist" <> [] /\ lit "windows.pslist" <> lit "Plugins".
Proof.
  apply (captured_names_are_trimmed
           (lit "usage" ++ [10] ++ lit "Plugins" ++ [10] ++ lit "  windows.pslist  " ++ [10])
           (lit "windows.pslist")).
  vm_compute. left. reflexivity.
Defined.

(** X14 at a file of 100 bytes. *)
Lemma small_files_print_zero_witness :
  scan_file (lit "dumps") (lit "t.mem") [] (boot tiny_machine)
  = (Ok [lit "dumps/t.mem (Size: 0.00 MB)"], boot tiny_machine).
Proof.
  apply (proj1 (small_files_print_zero (lit "dumps") (lit "t.mem") [] (boot tiny_machine) 100
                  eq_refl eq_refl)).
  vm_compute. discriminate.
Defined.

(** X15 at a program whose output is no UTF-8 at all. *)
Lemma returned_text_is_encodable_witness :
  exists text,
    returned (run_volatility [lit "-h"] VOLATILITY_DIR)
      (boot (machine (fun _ => Some {| stdout := [xff; xed; xa0; x80; x41]; stderr := [];
                                       returncode := 0 |}) true))
    = Ok text
    /\ forallb scalar text = true.
Proof.
  apply (returned_text_is_encodable [lit "-h"] VOLATILITY_DIR
           (boot (machine (fun _ => Some {| stdout := [xff; xed; xa0; x80; x41]; stderr := [];
                                            returncode := 0 |}) true))
           {| stdout := [xff; xed; xa0; x80; x41]; stderr := []; returncode := 0 |}
           (with_nodes (machine (fun _ => Some {| stdout := [xff; xed; xa0; x80; x41];
                                                  stderr := []; returncode := 0 |}) true)
              (tool_writes (machine missing true) ++ nodes (machine missing true)))
           (with_nodes (machine (fun _ => Some {| stdout := [xff; xed; xa0; x80; x41];
                                                  stderr := []; returncode := 0 |}) true)
              (tool_writes (machine missing true) ++ nodes (machine missing true)))
           {| stdout := [xff; xed; xa0; x80; x41]; stderr := []; returncode := 0 |}
           eq_refl eq_refl).
Defined.

End ConcreteMore.
